(** * AWS Lambda poison-pill demo: the two handlers and their contracts

    The repository holds two Python Lambda handlers:
    - [dynodb_data_validate_with_dlq.py]: validates a DynamoDB stream batch
      and raises on the first record whose [NewImage] has no ['value'];
    - [s3_to_dynodb.py]: copies the records of a JSON object in S3 into a
      DynamoDB table.

    Both are embedded as functions in a state-and-exception monad.  The state
    holds what the handler writes to standard output (and, for the copier,
    the calls made to the AWS services); the result is either the returned
    value or the Python exception that left the handler. *)

From Stdlib Require Import List String Ascii ZArith Bool Lia.
From Stdlib Require Import Floats.SpecFloat.
Import ListNotations.
Local Open Scope string_scope.
Local Open Scope list_scope.

(** ** Python values

    A Lambda event is a decoded JSON document, so the values a handler sees
    are [None], booleans, integers, floats, strings, lists and dictionaries
    with string keys.  A dictionary keeps its insertion order; it is an
    association list, and a key is read at its first binding (the keys of
    a Python dictionary are distinct).

    A [string] holds a Python [str] in UTF-8.  [json.loads] turns an
    escape such as [\ud800] into a lone surrogate, which is a character of
    the [str] like any other; here it is written like any other code
    point, on three bytes of which the first is [ED] and the second is
    between [A0] and [BF]. *)

#[warnings="-register-all"]
Inductive pyval : Type :=
| PNone
| PBool (b : bool)
| PInt (n : Z)
| PFloat (x : spec_float)
| PStr (s : string)
| PList (items : list pyval)
| PDict (entries : list (string * pyval)).

(** The text of a string built at run time.  What [str] and [json.dumps]
    print for a value is not unfolded: a piece records which value was
    rendered and by which of the two. *)
#[warnings="-register-all"]
Inductive piece : Type :=
| Lit (s : string)
| Str (v : pyval)
| JsonDumps (v : pyval).

Definition text := list piece.

(** The exceptions that can leave a handler.  [Exception msg] is an instance
    of the class [Exception] itself, as line 14 of the validator raises it;
    [UnicodeEncodeError] is what a write to standard output raises on text
    it cannot encode; [LibraryError cls msg] is an exception of the class
    named [cls] raised inside [boto3] or [json]. *)
#[warnings="-register-all"]
Inductive py_exn : Type :=
| Exception (msg : text)
| KeyError (key : pyval)
| IndexError
| TypeError
| UnicodeEncodeError
| LibraryError (cls : string) (msg : string).

Definition result (A : Type) : Type := (py_exn + A)%type.

(** ** Characters of a string *)

(** A byte [10xxxxxx], which continues a character. *)
Definition is_continuation (c : ascii) : bool :=
  match c with
  | Ascii _ _ _ _ _ _ b6 b7 => b7 && negb b6
  end.

(** The byte [ED], which begins the characters U+D000 to U+DFFF. *)
Definition is_ED (c : ascii) : bool :=
  match c with
  | Ascii b0 b1 b2 b3 b4 b5 b6 b7 =>
      b0 && negb b1 && b2 && b3 && negb b4 && b5 && b6 && b7
  end.

(** A byte between [A0] and [BF], which after [ED] makes a surrogate. *)
Definition is_A0_BF (c : ascii) : bool :=
  match c with
  | Ascii _ _ _ _ _ b5 b6 b7 => b7 && negb b6 && b5
  end.

(** The string has no surrogate: UTF-8 can encode it. *)
Fixpoint encodable (s : string) : bool :=
  match s with
  | EmptyString => true
  | String c s' =>
      match s' with
      | EmptyString => true
      | String d _ => negb (is_ED c && is_A0_BF d) && encodable s'
      end
  end.

(** The bytes that continue a character at the head of the string, and the
    characters behind them. *)
Fixpoint split_chars (s : string) : string * list string :=
  match s with
  | EmptyString => (EmptyString, [])
  | String c s' =>
      let (cont, cs) := split_chars s' in
      if is_continuation c then (String c cont, cs)
      else (EmptyString, String c cont :: cs)
  end.

(** The characters of a string, each with all its bytes. *)
Definition chars (s : string) : list string :=
  match split_chars s with
  | (EmptyString, cs) => cs
  | (cont, cs) => cont :: cs
  end.

(** ** Python operations used by the handlers *)

Fixpoint dict_get (k : string) (d : list (string * pyval)) : option pyval :=
  match d with
  | [] => None
  | (k', v) :: d' => if String.eqb k k' then Some v else dict_get k d'
  end.

(** [v[k]] for a string key [k]. *)
Definition getitem (v : pyval) (k : string) : result pyval :=
  match v with
  | PDict d =>
      match dict_get k d with
      | Some x => inr x
      | None => inl (KeyError (PStr k))
      end
  | _ => inl TypeError
  end.

(** [v[i]] for an integer [i]; a negative index counts from the end. *)
Definition seq_index {A : Type} (l : list A) (i : Z) : option A :=
  if (0 <=? i)%Z then nth_error l (Z.to_nat i)
  else if (- Z.of_nat (List.length l) <=? i)%Z
       then nth_error l (Z.to_nat (Z.of_nat (List.length l) + i))
       else None.

Definition getitem_int (v : pyval) (i : Z) : result pyval :=
  match v with
  | PList l =>
      match seq_index l i with
      | Some x => inr x
      | None => inl IndexError
      end
  | PStr s =>
      match seq_index (chars s) i with
      | Some c => inr (PStr c)
      | None => inl IndexError
      end
  | PDict _ => inl (KeyError (PInt i))
  | _ => inl TypeError
  end.

Definition is_str (k : string) (v : pyval) : bool :=
  match v with
  | PStr s => String.eqb s k
  | _ => false
  end.

Definition is_substring (k s : string) : bool :=
  match String.index 0 k s with
  | Some _ => true
  | None => false
  end.

(** [k in v] for a string [k]: a key of a dictionary, an element of a list,
    a substring of a string; other values are not containers. *)
Definition contains (k : string) (v : pyval) : result bool :=
  match v with
  | PDict d =>
      inr (match dict_get k d with Some _ => true | None => false end)
  | PList l => inr (existsb (is_str k) l)
  | PStr s => inr (is_substring k s)
  | _ => inl TypeError
  end.

(** The elements [for x in v] runs through. *)
Definition iter (v : pyval) : result (list pyval) :=
  match v with
  | PList l => inr l
  | PDict d => inr (map (fun kv => PStr (fst kv)) d)
  | PStr s => inr (map PStr (chars s))
  | _ => inl TypeError
  end.

(** ** Text that standard output can encode

    Standard output encodes to UTF-8 and raises on a surrogate.  [str] of a
    string is the string itself; [str] of any other value, and
    [json.dumps] of any value, escape the surrogates inside it. *)

Definition printable (v : pyval) : bool :=
  match v with
  | PStr s => encodable s
  | _ => true
  end.

Definition piece_printable (p : piece) : bool :=
  match p with
  | Lit s => encodable s
  | Str v => printable v
  | JsonDumps _ => true
  end.

Definition text_printable (t : text) : bool := forallb piece_printable t.

(** ** The monad of a handler run *)

Module Run.
Section Monad.
Context {St : Type}.

Definition M (A : Type) : Type := St -> result A * St.

Definition ret {A : Type} (a : A) : M A := fun s => (inr a, s).

Definition bind {A B : Type} (m : M A) (f : A -> M B) : M B :=
  fun s =>
    match m s with
    | (inl e, s') => (inl e, s')
    | (inr a, s') => f a s'
    end.

Definition raise {A : Type} (e : py_exn) : M A := fun s => (inl e, s).

Definition lift {A : Type} (r : result A) : M A := fun s => (r, s).

(** [for x in xs: body x] *)
Fixpoint for_each {A : Type} (body : A -> M unit) (xs : list A) : M unit :=
  match xs with
  | [] => ret tt
  | x :: xs' => bind (body x) (fun _ => for_each body xs')
  end.
End Monad.
Arguments M : clear implicits.
End Run.
Import Run.

Declare Scope run_scope.
Delimit Scope run_scope with run.
Notation "x <- m ;; k" := (bind m (fun x => k))
  (at level 61, m at next level, right associativity) : run_scope.
Notation "m ;; k" := (bind m (fun _ => k))
  (at level 61, right associativity) : run_scope.
Local Open Scope run_scope.

(** Standard output is a list of lines, the oldest first.  The output
    before a run ends with a finished line. *)
Definition line := text.

Class Console (St : Type) : Type :=
  { write_line : line -> St -> St }.

(** What [print(a1, ..., an)] writes, one write per argument: each argument
    but the first after a space, up to the first argument that cannot be
    encoded, and whether all of them could be.  An f-string is one
    argument. *)
Fixpoint write_args (first : bool) (args : list text) : line * bool :=
  match args with
  | [] => ([], true)
  | a :: rest =>
      let sep := if first then [] else [Lit " "] in
      if text_printable a
      then let (l, ok) := write_args false rest in (sep ++ a ++ l, ok)
      else (sep, false)
  end.

(** [print(a1, ..., an)]: the arguments and the end of the line are
    written, or the write of an argument raises and what was written
    before it stays, as a last line without its end. *)
Definition print {St : Type} `{Console St} (args : list text) : M St unit :=
  fun s =>
    match write_args true args with
    | (l, true) => (inr tt, write_line l s)
    | ([], false) => (inl UnicodeEncodeError, s)
    | (l, false) => (inl UnicodeEncodeError, write_line l s)
    end.

#[export] Instance stdout_console : Console (list line) :=
  { write_line := fun l out => out ++ [l] }.

(** * The batch validator, [dynodb_data_validate_with_dlq.py] *)

Module dynodb_data_validate_with_dlq.

(** The lines the three [print] statements write when they go through. *)
Definition received_line (event : pyval) : line :=
  [Lit "Received records:"; Lit " "; JsonDumps event].

Definition processing_line (new_image : pyval) : line :=
  [Lit "Processing record:"; Lit " "; Str new_image].

Definition success_line (id : pyval) : line :=
  [Lit "Successfully processed record with id: "; Str id].

(** The body of the loop over [event['Records']]. *)
Definition process_record (record : pyval) : M (list line) unit :=
  d <- lift (getitem record "dynamodb") ;;
  new_image <- lift (getitem d "NewImage") ;;
  print [[Lit "Processing record:"]; [Str new_image]] ;;
  present <- lift (contains "value" new_image) ;;
  if negb present
  then raise (Exception [Lit "Malformed record detected: "; Str new_image])
  else
    id <- lift (getitem new_image "id") ;;
    s <- lift (getitem id "S") ;;
    print [[Lit "Successfully processed record with id: "; Str s]].

Definition lambda_handler {C : Type} (event : pyval) (context : C)
  : M (list line) pyval :=
  print [[Lit "Received records:"]; [JsonDumps event]] ;;
  records <- lift (getitem event "Records") ;;
  items <- lift (iter records) ;;
  for_each process_record items ;;
  ret (PDict [("statusCode", PInt 200)]).

End dynodb_data_validate_with_dlq.

(** * The object-to-table copier, [s3_to_dynodb.py] *)

Module s3_to_dynodb.

(** A request sent to an AWS service. *)
Inductive call : Type :=
| GetObject (bucket key : pyval)
| PutItem (table_name : string) (item : pyval).

(** The state of a run: standard output and the requests sent so far. *)
Record world : Type := { stdout : list line; calls : list call }.

#[export] Instance world_console : Console world :=
  { write_line := fun l w =>
      {| stdout := stdout w ++ [l]; calls := calls w |} }.

(** Sending a request records it; the service answers from what it has been
    asked so far. *)
Definition invoke {A : Type} (c : call) (answer : list call -> result A)
  : M world A :=
  fun w =>
    (answer (calls w), {| stdout := stdout w; calls := calls w ++ [c] |}).

Definition ask {A : Type} (answer : list call -> result A) : M world A :=
  fun w => (answer (calls w), w).

(** [table = dynamodb.Table("dynotbl_1")] *)
Definition table : string := "dynotbl_1".

(** The lines the two [print] statements write when they go through. *)
Definition inserting_line (record : pyval) : line :=
  [Lit "Inserting record:"; Lit " "; Str record].

Definition received_line (event : pyval) : line :=
  [Lit "Received event:"; Lit " "; JsonDumps event].

Section Services.
(** The services the module talks to through [boto3], and [json.loads]:
    - [s3_get_object h bucket key] is the answer of
      [s3.get_object(Bucket=bucket, Key=key)] after the requests [h];
    - [body_read h response] is [response['Body'].read()];
    - [table_put_item h name item] is the answer of [put_item(Item=item)]
      on the table called [name]. *)
Context {Response : Type}.
Variable s3_get_object : list call -> pyval -> pyval -> result Response.
Variable body_read : list call -> Response -> result (list Byte.byte).
Variable json_loads : list Byte.byte -> result pyval.
Variable table_put_item : list call -> string -> pyval -> result unit.

(** The body of the loop over the parsed records. *)
Definition insert_record (record : pyval) : M world unit :=
  print [[Lit "Inserting record:"]; [Str record]] ;;
  invoke (PutItem table record) (fun h => table_put_item h table record).

Definition lambda_handler {C : Type} (event : pyval) (context : C)
  : M world pyval :=
  print [[Lit "Received event:"]; [JsonDumps event]] ;;
  (* event['Records'][0]['s3']['bucket']['name'] *)
  rs <- lift (getitem event "Records") ;;
  r0 <- lift (getitem_int rs 0) ;;
  s3 <- lift (getitem r0 "s3") ;;
  b <- lift (getitem s3 "bucket") ;;
  bucket <- lift (getitem b "name") ;;
  (* event['Records'][0]['s3']['object']['key'] *)
  rs' <- lift (getitem event "Records") ;;
  r0' <- lift (getitem_int rs' 0) ;;
  s3' <- lift (getitem r0' "s3") ;;
  o <- lift (getitem s3' "object") ;;
  key <- lift (getitem o "key") ;;
  response <- invoke (GetObject bucket key)
                     (fun h => s3_get_object h bucket key) ;;
  content <- ask (fun h => body_read h response) ;;
  records <- lift (json_loads content) ;;
  items <- lift (iter records) ;;
  for_each insert_record items ;;
  ret (PDict [("statusCode", PInt 200);
              ("body", PStr "Data inserted into DynamoDB")]).
End Services.

End s3_to_dynodb.

(** * Vocabulary of the specification *)

Module Batch.
Import dynodb_data_validate_with_dlq.

(** [record['dynamodb']['NewImage']] *)
Definition new_image (record : pyval) : result pyval :=
  match getitem record "dynamodb" with
  | inr d => getitem d "NewImage"
  | inl e => inl e
  end.

(** [new_image['id']['S']] *)
Definition entry_id (img : pyval) : result pyval :=
  match getitem img "id" with
  | inr i => getitem i "S"
  | inl e => inl e
  end.

(** The entry has a [NewImage], and [k not in new_image] holds. *)
Definition lacks (k : string) (record : pyval) : bool :=
  match new_image record with
  | inr img =>
      match contains k img with
      | inr present => negb present
      | inl _ => false
      end
  | inl _ => false
  end.

Definition lacks_value : pyval -> bool := lacks "value".

(** The entry has a [NewImage], and ['value' in new_image] holds. *)
Definition has_value (record : pyval) : bool :=
  match new_image record with
  | inr img =>
      match contains "value" img with
      | inr present => present
      | inl _ => false
      end
  | inl _ => false
  end.

(** The entry has a [NewImage] with an ['id'] that has an ['S']. *)
Definition has_id (record : pyval) : bool :=
  match new_image record with
  | inr img =>
      match entry_id img with
      | inr _ => true
      | inl _ => false
      end
  | inl _ => false
  end.

(** The id of the entry can be printed: it is not a string with a
    surrogate in it. *)
Definition id_printable (record : pyval) : bool :=
  match new_image record with
  | inr img =>
      match entry_id img with
      | inr i => printable i
      | inl _ => false
      end
  | inl _ => false
  end.



(** An entry the loop accepts: it has a ['value'], and its id is there and
    can be printed. *)
Definition accepted (record : pyval) : bool :=
  has_value record && has_id record && id_printable record.

(** The two lines printed for an accepted entry. *)
Definition accepted_lines (record : pyval) : list line :=
  match new_image record with
  | inr img =>
      match entry_id img with
      | inr i => [processing_line img; success_line i]
      | inl _ => []
      end
  | inl _ => []
  end.

(** A poison pill: the loop gets to line 14 on it.  Its [NewImage] was
    printed and has no ['value']. *)
Definition pill (record : pyval) : bool :=
  match new_image record with
  | inr img => printable img && lacks_value record
  | inl _ => false
  end.

(** The first record of the batch that the loop does not accept. *)
Fixpoint first_rejected (recs : list pyval) : option pyval :=
  match recs with
  | [] => None
  | r :: rs => if accepted r then first_rejected rs else Some r
  end.

(** The first record that is not accepted is a poison pill: every record
    before the first pill is accepted. *)
Definition pill_first (recs : list pyval) : bool :=
  match first_rejected recs with
  | Some r => pill r
  | None => false
  end.


(** The error raised at line 14 for the image [img]. *)
Definition MalformedEntry (img : pyval) : py_exn :=
  Exception [Lit "Malformed record detected: "; Str img].

Definition is_MalformedEntry (e : py_exn) : bool :=
  match e with
  | Exception [Lit "Malformed record detected: "; Str _] => true
  | _ => false
  end.






(** An entry of the change feed, [{dynamodb: {NewImage: img}}]. *)
Definition entry (img : list (string * pyval)) : pyval :=
  PDict [("dynamodb", PDict [("NewImage", PDict img)])].

(** A string attribute on the wire, [{"S": s}]. *)
Definition attr_S (s : string) : pyval := PDict [("S", PStr s)].

Definition event_of (records : list pyval) : pyval :=
  PDict [("Records", PList records)].

(** The lone surrogate U+D800, as [json.loads] makes it of [\ud800]. *)
Definition lone_surrogate : string :=
  String (ascii_of_nat 237)
         (String (ascii_of_nat 160) (String (ascii_of_nat 128) EmptyString)).

(** Scenarios A, B and C of the specification. *)
Definition scenario_A : pyval :=
  event_of [entry [("id", attr_S "1"); ("value", attr_S "x")]].

Definition scenario_B : pyval :=
  event_of [entry [("id", attr_S "1"); ("value", attr_S "x")];
            entry [("id", attr_S "2")]].

Definition scenario_C : pyval := event_of [].

(** A poison pill between two valid entries. *)
Definition pill_between : list pyval :=
  [entry [("id", attr_S "1"); ("value", attr_S "x")];
   entry [("id", attr_S "2")];
   entry [("id", attr_S "3"); ("value", attr_S "z")]].


(** A valid entry, a poison pill, and an entry with no ['id'] behind it. *)
Definition pill_then_no_id : list pyval :=
  [entry [("id", attr_S "1"); ("value", attr_S "x")];
   entry [("id", attr_S "2")];
   entry [("value", attr_S "z")]].

(** An entry whose id is a number, [{'N': '7'}], before a poison pill. *)
Definition numeric_id_then_pill : list pyval :=
  [entry [("id", PDict [("N", PStr "7")]); ("value", attr_S "x")];
   entry [("id", attr_S "2")]].

(** An entry whose id is a lone surrogate. *)
Definition surrogate_id_entry : pyval :=
  entry [("id", attr_S lone_surrogate); ("value", attr_S "x")].



(** An entry with no ['id'] before a record without ['dynamodb']. *)
Definition no_id_then_empty_record : list pyval :=
  [entry [("value", attr_S "x")]; PDict []].

End Batch.

Import Batch.

Module Notification.
Import s3_to_dynodb.

(** [event['Records'][0]] *)
Definition first_record (event : pyval) : result pyval :=
  match getitem event "Records" with
  | inr rs => getitem_int rs 0
  | inl e => inl e
  end.

(** [record['s3'][section][field]] *)
Definition s3_field (section field : string) (record : pyval) : result pyval :=
  match getitem record "s3" with
  | inr s3 =>
      match getitem s3 section with
      | inr x => getitem x field
      | inl e => inl e
      end
  | inl e => inl e
  end.

(** [event['Records'][0]['s3']['bucket']['name']] *)
Definition bucket_name (event : pyval) : result pyval :=
  match first_record event with
  | inr r0 => s3_field "bucket" "name" r0
  | inl e => inl e
  end.

(** [event['Records'][0]['s3']['object']['key']] *)
Definition object_key (event : pyval) : result pyval :=
  match first_record event with
  | inr r0 => s3_field "object" "key" r0
  | inl e => inl e
  end.

(** The state after the echo of the event and the request for the object. *)
Definition after_fetch (event bucket key : pyval) (w : world) : world :=
  {| stdout := stdout w ++ [received_line event];
     calls := calls w ++ [GetObject bucket key] |}.

(** A record of an S3 notification. *)
Definition s3_record (bucket key : string) : pyval :=
  PDict [("s3", PDict [("bucket", PDict [("name", PStr bucket)]);
                       ("object", PDict [("key", PStr key)])])].

Definition notification (records : list pyval) : pyval :=
  PDict [("Records", PList records)].

(** A sample world: the object [data.json] of the bucket [uploads] holds
    the bytes of [[{"id":"1"},{"id":"2"}]], and the table takes every item. *)
Definition sample_content : list Byte.byte :=
  [Byte.x5b; Byte.x7b; Byte.x22; Byte.x69; Byte.x64; Byte.x22; Byte.x3a;
   Byte.x22; Byte.x31; Byte.x22; Byte.x7d; Byte.x2c;
   Byte.x7b; Byte.x22; Byte.x69; Byte.x64; Byte.x22; Byte.x3a;
   Byte.x22; Byte.x32; Byte.x22; Byte.x7d; Byte.x5d].

Definition sample_records : list pyval :=
  [PDict [("id", PStr "1")]; PDict [("id", PStr "2")]].

Definition sample_get_object (h : list call) (bucket key : pyval)
  : result (list Byte.byte) :=
  if is_str "uploads" bucket && is_str "data.json" key
  then inr sample_content
  else inl (LibraryError "NoSuchKey" "The specified key does not exist.").

Definition sample_body_read (h : list call) (response : list Byte.byte)
  : result (list Byte.byte) :=
  inr response.

Definition sample_json_loads (content : list Byte.byte) : result pyval :=
  if String.eqb (string_of_list_byte content)
                (string_of_list_byte sample_content)
  then inr (PList sample_records)
  else inl (LibraryError "JSONDecodeError" "Expecting value").

Definition sample_put_item (h : list call) (name : string) (item : pyval)
  : result unit :=
  inr tt.

Definition sample_event : pyval :=
  notification [s3_record "uploads" "data.json"; s3_record "other" "more.json"].

Definition empty_world : world := {| stdout := []; calls := [] |}.

(** A second sample world: the object [prices.json] of the bucket
    [uploads] holds the bytes of [[{"id":"1","price":1.5}]], and the table
    refuses an item with a float in it, as the serializer of [boto3] does
    with a [TypeError]. *)
Definition priced_content : list Byte.byte :=
  [Byte.x5b; Byte.x7b; Byte.x22; Byte.x69; Byte.x64; Byte.x22; Byte.x3a;
   Byte.x22; Byte.x31; Byte.x22; Byte.x2c;
   Byte.x22; Byte.x70; Byte.x72; Byte.x69; Byte.x63; Byte.x65; Byte.x22;
   Byte.x3a; Byte.x31; Byte.x2e; Byte.x35; Byte.x7d; Byte.x5d].

(** The float 1.5, that is 3 * 2^-1. *)
Definition one_and_a_half : spec_float := S754_finite false 3 (-1).

Definition priced_records : list pyval :=
  [PDict [("id", PStr "1"); ("price", PFloat one_and_a_half)]].

Definition priced_get_object (h : list call) (bucket key : pyval)
  : result (list Byte.byte) :=
  if is_str "uploads" bucket && is_str "prices.json" key
  then inr priced_content
  else inl (LibraryError "NoSuchKey" "The specified key does not exist.").

Definition priced_json_loads (content : list Byte.byte) : result pyval :=
  if String.eqb (string_of_list_byte content)
                (string_of_list_byte priced_content)
  then inr (PList priced_records)
  else inl (LibraryError "JSONDecodeError" "Expecting value").

Definition has_float (item : pyval) : bool :=
  match item with
  | PDict d =>
      existsb (fun kv => match snd kv with PFloat _ => true | _ => false end)
              d
  | _ => false
  end.

Definition float_refusing_put_item (h : list call) (name : string)
           (item : pyval) : result unit :=
  if has_float item then inl TypeError else inr tt.

Definition priced_event : pyval :=
  notification [s3_record "uploads" "prices.json"].

(** A third sample world: the object [names.json] of the bucket [uploads]
    holds the bytes of [["\ud800"]], a JSON list of one string, which
    [json.loads] reads as a lone surrogate. *)
Definition surrogate_content : list Byte.byte :=
  [Byte.x5b; Byte.x22; Byte.x5c; Byte.x75; Byte.x64; Byte.x38; Byte.x30;
   Byte.x30; Byte.x22; Byte.x5d].

Definition surrogate_get_object (h : list call) (bucket key : pyval)
  : result (list Byte.byte) :=
  if is_str "uploads" bucket && is_str "names.json" key
  then inr surrogate_content
  else inl (LibraryError "NoSuchKey" "The specified key does not exist.").

Definition surrogate_json_loads (content : list Byte.byte) : result pyval :=
  if String.eqb (string_of_list_byte content)
                (string_of_list_byte surrogate_content)
  then inr (PList [PStr lone_surrogate])
  else inl (LibraryError "JSONDecodeError" "Expecting value").

Definition surrogate_event : pyval :=
  notification [s3_record "uploads" "names.json"].

End Notification.

Import Notification.

(** * Shapes of records, errors and fetched objects *)

Module Shape.

(** The record is [{'dynamodb': {'NewImage': img}}], possibly with more
    keys at each level, where [img] is a dictionary with a ['value'] and
    with an ['id'] that is a dictionary with an ['S']. *)
Definition full_shape (record : pyval) : bool :=
  match record with
  | PDict r =>
      match dict_get "dynamodb" r with
      | Some (PDict d) =>
          match dict_get "NewImage" d with
          | Some (PDict img) =>
              match dict_get "value" img, dict_get "id" img with
              | Some _, Some (PDict i) =>
                  match dict_get "S" i with
                  | Some _ => true
                  | None => false
                  end
              | _, _ => false
              end
          | _ => false
          end
      | _ => false
      end
  | _ => false
  end.

Definition is_list (v : pyval) : bool :=
  match v with
  | PList _ => true
  | _ => false
  end.

(** The keys the validator looks up. *)
Definition validator_keys : list string :=
  ["Records"; "dynamodb"; "NewImage"; "id"; "S"].

(** The errors a run of the validator can end in: the [Exception] of line
    14, a [KeyError] on one of the keys it looks up, a [TypeError], or the
    [UnicodeEncodeError] of a write. *)
Definition validator_error (e : py_exn) : bool :=
  match e with
  | Exception _ => is_MalformedEntry e
  | KeyError (PStr k) => existsb (String.eqb k) validator_keys
  | TypeError => true
  | UnicodeEncodeError => true
  | _ => false
  end.

(** The entry with the id [fst p] and, under ['value'], the value [snd p]. *)
Definition id_value_image (p : string * pyval) : pyval :=
  PDict [("id", attr_S (fst p)); ("value", snd p)].

Definition id_value_entry (p : string * pyval) : pyval :=
  entry [("id", attr_S (fst p)); ("value", snd p)].

Definition id_value_lines (p : string * pyval) : list line :=
  [dynodb_data_validate_with_dlq.processing_line (id_value_image p);
   dynodb_data_validate_with_dlq.success_line (PStr (fst p))].

(** What is left of a line of which only the first argument and the space
    were written. *)
Definition unfinished (first : string) : line := [Lit first; Lit " "].

Section Fetch.
Import s3_to_dynodb.
Context {Response : Type}.
Variable s3_get_object : list call -> pyval -> pyval -> result Response.
Variable body_read : list call -> Response -> result (list Byte.byte).
Variable json_loads : list Byte.byte -> result pyval.

(** Lines 20 to 25 of the copier: the object is requested after the
    requests [h], read and parsed, and the loop is set to run over what
    was parsed. *)
Definition fetch_items (h : list call) (bucket key : pyval)
  : result (list pyval) :=
  match s3_get_object h bucket key with
  | inl e => inl e
  | inr response =>
      match body_read (h ++ [GetObject bucket key]) response with
      | inl e => inl e
      | inr content =>
          match json_loads content with
          | inl e => inl e
          | inr records => iter records
          end
      end
  end.
End Fetch.

(** The state after the echo of the event, the request for the object and
    the writes of [sent] to the table [dynotbl_1]. *)
Definition after_writes (event bucket key : pyval) (sent : list pyval)
           (w : s3_to_dynodb.world) : s3_to_dynodb.world :=
  {| s3_to_dynodb.stdout :=
       s3_to_dynodb.stdout w
       ++ s3_to_dynodb.received_line event
          :: map s3_to_dynodb.inserting_line sent;
     s3_to_dynodb.calls :=
       s3_to_dynodb.calls w
       ++ s3_to_dynodb.GetObject bucket key
          :: map (s3_to_dynodb.PutItem "dynotbl_1") sent |}.

Definition is_put (c : s3_to_dynodb.call) : bool :=
  match c with
  | s3_to_dynodb.PutItem _ _ => true
  | s3_to_dynodb.GetObject _ _ => false
  end.

(** A table that takes one write and is throttled from then on. *)
Definition throttled_put_item (h : list s3_to_dynodb.call) (name : string)
           (item : pyval) : result unit :=
  if existsb is_put h
  then inl (LibraryError "ClientError"
                         "ProvisionedThroughputExceededException")
  else inr tt.

End Shape.

Import Shape.

(** * Writes to standard output *)

Section Printing.
Context {St : Type} `{Console St}.

(** [print(label, v)]: when [v] cannot be encoded, the label and the space
    are written and stay. *)
Lemma print_label_value (label : string) (v : pyval) (s : St) :
  encodable label = true ->
  print [[Lit label]; [Str v]] s
  = if printable v
    then (inr tt, write_line [Lit label; Lit " "; Str v] s)
    else (inl UnicodeEncodeError, write_line [Lit label; Lit " "] s).
Proof.
  intros Hl. unfold print, write_args, text_printable.
  cbn [forallb piece_printable]. rewrite Hl. cbn [andb].
  destruct (printable v); reflexivity.
Qed.

(** [print(label, json.dumps(v))] always goes through. *)
Lemma print_label_json (label : string) (v : pyval) (s : St) :
  encodable label = true ->
  print [[Lit label]; [JsonDumps v]] s
  = (inr tt, write_line [Lit label; Lit " "; JsonDumps v] s).
Proof.
  intros Hl. unfold print, write_args, text_printable.
  cbn [forallb piece_printable]. rewrite Hl. reflexivity.
Qed.

(** [print(f"label{v}")]: the f-string is one argument, and nothing of it
    is written when [v] cannot be encoded. *)
Lemma print_fstring (label : string) (v : pyval) (s : St) :
  encodable label = true ->
  print [[Lit label; Str v]] s
  = if printable v
    then (inr tt, write_line [Lit label; Str v] s)
    else (inl UnicodeEncodeError, s).
Proof.
  intros Hl. unfold print, write_args, text_printable.
  cbn [forallb piece_printable]. rewrite Hl. cbn [andb].
  destruct (printable v); reflexivity.
Qed.
End Printing.

(** * The validator: how one record and a run of records are processed *)

Section ValidatorSteps.
Import dynodb_data_validate_with_dlq.

(** What the loop body does, by cases on the record. *)
Lemma process_record_spec (record : pyval) (out : list line) :
  process_record record out =
    match new_image record with
    | inl e => (inl e, out)
    | inr img =>
        if printable img then
          match contains "value" img with
          | inl e => (inl e, out ++ [processing_line img])
          | inr false =>
              (inl (MalformedEntry img), out ++ [processing_line img])
          | inr true =>
              match entry_id img with
              | inl e => (inl e, out ++ [processing_line img])
              | inr i =>
                  if printable i
                  then (inr tt,
                        out ++ [processing_line img; success_line i])
                  else (inl UnicodeEncodeError,
                        out ++ [processing_line img])
              end
          end
        else (inl UnicodeEncodeError,
              out ++ [unfinished "Processing record:"])
    end.
Proof.
  unfold process_record, new_image, entry_id, bind, lift, raise.
  destruct (getitem record "dynamodb") as [e|d]; [reflexivity|].
  destruct (getitem d "NewImage") as [e|img]; [reflexivity|].
  rewrite print_label_value by reflexivity.
  cbn [write_line stdout_console].
  destruct (printable img); [|reflexivity].
  destruct (contains "value" img) as [e|[|]]; cbn [negb]; try reflexivity.
  destruct (getitem img "id") as [e|i]; [reflexivity|].
  destruct (getitem i "S") as [e|s]; [reflexivity|].
  rewrite print_fstring by reflexivity.
  cbn [write_line stdout_console].
  destruct (printable s); [|reflexivity].
  rewrite <- app_assoc. reflexivity.
Qed.

(** An image with an id in it is a dictionary, which can be printed. *)
Lemma entry_id_printable (img i : pyval) :
  entry_id img = inr i -> printable img = true.
Proof. destruct img; try discriminate. reflexivity. Qed.

Lemma accepted_inv (record : pyval) :
  accepted record = true ->
  exists img i,
    new_image record = inr img /\ contains "value" img = inr true /\
    entry_id img = inr i /\ printable i = true /\ printable img = true.
Proof.
  unfold accepted, has_value, has_id, id_printable.
  destruct (new_image record) as [e|img]; [discriminate|].
  destruct (contains "value" img) as [e|[|]] eqn:Hc; cbn; try discriminate.
  destruct (entry_id img) as [e|i] eqn:Hi; [discriminate|].
  intros Hp. exists img, i.
  repeat split; auto. exact (entry_id_printable _ _ Hi).
Qed.

Lemma lacks_value_inv (record : pyval) :
  lacks_value record = true ->
  exists img, new_image record = inr img /\ contains "value" img = inr false.
Proof.
  unfold lacks_value, lacks.
  destruct (new_image record) as [e|img]; [discriminate|].
  destruct (contains "value" img) as [e|[|]] eqn:Hc; try discriminate.
  intros _. exists img. auto.
Qed.

Lemma process_accepted (record : pyval) (out : list line) :
  accepted record = true ->
  process_record record out = (inr tt, out ++ accepted_lines record).
Proof.
  intros H. destruct (accepted_inv _ H) as (img & i & Hn & Hc & Hi & Hpi & Hp).
  rewrite process_record_spec. unfold accepted_lines.
  rewrite Hn, Hp, Hc, Hi, Hpi. reflexivity.
Qed.

(** The body returns normally only on an accepted entry. *)
Lemma process_returns_inv (record : pyval) (out out' : list line) (u : unit) :
  process_record record out = (inr u, out') ->
  accepted record = true /\ out' = out ++ accepted_lines record.
Proof.
  rewrite process_record_spec.
  unfold accepted, has_value, has_id, id_printable, accepted_lines.
  destruct (new_image record) as [e|img]; [discriminate|].
  destruct (printable img); [|discriminate].
  destruct (contains "value" img) as [e|[|]]; cbn; try discriminate.
  destruct (entry_id img) as [e|i]; [discriminate|].
  destruct (printable i); [|discriminate].
  intros H. injection H as _ <-. auto.
Qed.

(** Whether the body raises does not depend on what was printed before. *)
Lemma process_raises (record : pyval) (out : list line) :
  accepted record = false ->
  exists e out', process_record record out = (inl e, out').
Proof.
  intros H. destruct (process_record record out) as [[e|[]] out'] eqn:E.
  - eauto.
  - apply process_returns_inv in E as [E _]. congruence.
Qed.

End ValidatorSteps.

Section ValidatorLoop.
Import dynodb_data_validate_with_dlq.

Lemma for_each_cons (record : pyval) (recs : list pyval) (out : list line) :
  for_each process_record (record :: recs) out =
    match process_record record out with
    | (inl e, out') => (inl e, out')
    | (inr _, out') => for_each process_record recs out'
    end.
Proof. reflexivity. Qed.

(** A run of accepted entries prints their lines and goes on. *)
Lemma loop_app (pre rest : list pyval) :
  forallb accepted pre = true ->
  forall out,
    for_each process_record (pre ++ rest) out
    = for_each process_record rest (out ++ flat_map accepted_lines pre).
Proof.
  induction pre as [|r pre IH]; intros Hacc out.
  - cbn. now rewrite app_nil_r.
  - cbn [forallb] in Hacc. apply andb_true_iff in Hacc as [Hr Hpre].
    cbn [app flat_map]. rewrite for_each_cons, (process_accepted _ _ Hr).
    rewrite (IH Hpre), app_assoc. reflexivity.
Qed.

Lemma loop_accepted (recs : list pyval) (out : list line) :
  forallb accepted recs = true ->
  for_each process_record recs out
  = (inr tt, out ++ flat_map accepted_lines recs).
Proof.
  intros H. rewrite <- (app_nil_r recs) at 1.
  rewrite (loop_app _ _ H). reflexivity.
Qed.

(** When the loop raises, it raises at the first entry that is not
    accepted, after the lines of the entries before it. *)
Lemma loop_raise_inv (recs : list pyval) :
  forall (out out' : list line) (e : py_exn),
    for_each process_record recs out = (inl e, out') ->
    exists pre bad post,
      recs = pre ++ bad :: post /\ forallb accepted pre = true /\
      process_record bad (out ++ flat_map accepted_lines pre) = (inl e, out').
Proof.
  induction recs as [|r recs IH]; intros out out' e H.
  - discriminate.
  - rewrite for_each_cons in H.
    destruct (process_record r out) as [[e0|[]] o] eqn:E.
    + injection H as -> ->. exists [], r, recs. cbn.
      rewrite app_nil_r. auto.
    + apply process_returns_inv in E as [Hr ->].
      destruct (IH _ _ _ H) as (pre & bad & post & -> & Hpre & Hbad).
      exists (r :: pre), bad, post. cbn [app forallb flat_map].
      rewrite Hr, Hpre, app_assoc. auto.
Qed.

(** The loop returns only when every record was accepted. *)
Lemma loop_return_inv (items : list pyval) :
  forall (out out' : list line) (u : unit),
    for_each process_record items out = (inr u, out') ->
    forallb accepted items = true /\
    out' = out ++ flat_map accepted_lines items.
Proof.
  induction items as [|r items IH]; intros out out' u H.
  - cbn in H. injection H as <-. now rewrite app_nil_r.
  - rewrite for_each_cons in H.
    destruct (process_record r out) as [[e|[]] o] eqn:E; [discriminate|].
    apply process_returns_inv in E as [Hr ->].
    apply IH in H as [Hall ->]. cbn [forallb flat_map].
    now rewrite Hr, Hall, app_assoc.
Qed.

(** One entry that is not accepted is enough for the loop to raise. *)
Lemma loop_fails (recs : list pyval) :
  existsb (fun r => negb (accepted r)) recs = true ->
  forall out, exists e out', for_each process_record recs out = (inl e, out').
Proof.
  induction recs as [|r recs IH]; intros H out; [discriminate|].
  rewrite for_each_cons. destruct (accepted r) eqn:Hr.
  - rewrite (process_accepted _ _ Hr). apply IH.
    cbn [existsb] in H. now rewrite Hr in H.
  - destruct (process_raises r out Hr) as (e & out' & ->). eauto.
Qed.

(** The entries behind one that is not accepted are never looked at. *)
Lemma loop_stops (pre post : list pyval) (bad : pyval) :
  accepted bad = false ->
  forall out,
    for_each process_record (pre ++ bad :: post) out
    = for_each process_record (pre ++ [bad]) out.
Proof.
  intros Hbad. induction pre as [|r pre IH]; intros out.
  - cbn [app]. rewrite !for_each_cons.
    destruct (process_raises bad out Hbad) as (e & out' & ->). reflexivity.
  - cbn [app]. rewrite !for_each_cons.
    destruct (process_record r out) as [[e|[]] o]; [reflexivity|apply IH].
Qed.

(** The body only appends to standard output, and what it appends and how
    it ends do not depend on what was there before. *)
Lemma process_appends (record : pyval) (out : list line) :
  process_record record out
  = (fst (process_record record []), out ++ snd (process_record record [])).
Proof.
  rewrite !process_record_spec.
  destruct (new_image record) as [e|img]; cbn [fst snd app];
    [now rewrite app_nil_r|].
  destruct (printable img); [|reflexivity].
  destruct (contains "value" img) as [e|[|]]; cbn [fst snd app];
    try reflexivity.
  destruct (entry_id img) as [e|i]; cbn [fst snd app]; [reflexivity|].
  destruct (printable i); reflexivity.
Qed.

Lemma loop_appends (recs : list pyval) :
  forall out,
    for_each process_record recs out
    = (fst (for_each process_record recs []),
       out ++ snd (for_each process_record recs [])).
Proof.
  induction recs as [|r recs IH]; intros out.
  - cbn. now rewrite app_nil_r.
  - rewrite !for_each_cons, (process_appends r out).
    destruct (process_record r []) as [[e|[]] lines]; cbn [fst snd app].
    + reflexivity.
    + rewrite (IH (out ++ lines)), (IH lines). cbn [fst snd].
      now rewrite app_assoc.
Qed.



Lemma first_rejected_split (pre post : list pyval) (r : pyval) :
  forallb accepted pre = true -> accepted r = false ->
  first_rejected (pre ++ r :: post) = Some r.
Proof.
  intros Hpre Hr. induction pre as [|x pre IH].
  - cbn. now rewrite Hr.
  - cbn [forallb] in Hpre. apply andb_true_iff in Hpre as [Hx Hpre].
    cbn [app first_rejected]. rewrite Hx. exact (IH Hpre).
Qed.

Lemma lacks_value_not_accepted (record : pyval) :
  lacks_value record = true -> accepted record = false.
Proof.
  intros H. destruct (lacks_value_inv _ H) as (img & Hn & Hc).
  unfold accepted, has_value. now rewrite Hn, Hc.
Qed.

(** When every record before a poison pill is accepted, the pill is the
    first record that is not. *)
Lemma pill_first_after_accepted (pre post : list pyval) (r : pyval) :
  forallb accepted pre = true -> pill r = true ->
  pill_first (pre ++ r :: post) = true.
Proof.
  intros Hpre Hr. unfold pill_first.
  rewrite (first_rejected_split pre post r Hpre); [exact Hr|].
  unfold pill in Hr. destruct (new_image r); [discriminate|].
  apply andb_true_iff in Hr as [_ Hr].
  exact (lacks_value_not_accepted _ Hr).
Qed.


(** The handler, by cases on the event. *)
Lemma lambda_handler_spec {C : Type} (event : pyval) (ctx : C)
      (out : list line) :
  lambda_handler event ctx out =
    match getitem event "Records" with
    | inl e => (inl e, out ++ [received_line event])
    | inr records =>
        match iter records with
        | inl e => (inl e, out ++ [received_line event])
        | inr items =>
            match for_each process_record items
                           (out ++ [received_line event]) with
            | (inl e, out') => (inl e, out')
            | (inr _, out') => (inr (PDict [("statusCode", PInt 200)]), out')
            end
        end
    end.
Proof.
  unfold lambda_handler, bind, lift, ret.
  rewrite print_label_json by reflexivity.
  cbn [write_line stdout_console].
  destruct (getitem event "Records") as [e|records]; [reflexivity|].
  destruct (iter records) as [e|items]; [reflexivity|].
  destruct (for_each process_record items _) as [[e|u] o]; reflexivity.
Qed.





Lemma getitem_event_of (recs : list pyval) :
  getitem (event_of recs) "Records" = inr (PList recs).
Proof. reflexivity. Qed.

End ValidatorLoop.

(** * The validator's contract *)

Section ValidatorContract.
Import dynodb_data_validate_with_dlq.
Context {C : Type}.




(** C3 (amended).  For every batch with a malformed entry, the run is the
    run on the batch cut right after that entry: the same outcome and,
    after the echo of the event, the same lines, so nothing is printed for
    a later entry.  When every entry before it is accepted (has a
    ['value'] and an id that is there and can be printed), it is the first
    malformed entry, and the error raised is the [Exception] of line 14
    with the image of that entry in its message; the one case apart is an
    image that is a string which cannot be printed, on which line 9
    raises. *)
Theorem C3_first_malformed_entry_reported (ctx : C) (event : pyval)
        (pre post : list pyval) (bad : pyval) (out : list line) :
  getitem event "Records" = inr (PList (pre ++ bad :: post)) ->
  lacks_value bad = true ->
  (fst (lambda_handler event ctx out)
   = fst (lambda_handler (event_of (pre ++ [bad])) ctx out) /\
   exists lines,
     snd (lambda_handler event ctx out)
     = out ++ received_line event :: lines /\
     snd (lambda_handler (event_of (pre ++ [bad])) ctx out)
     = out ++ received_line (event_of (pre ++ [bad])) :: lines) /\
  (forallb accepted pre = true ->
   exists img,
     new_image bad = inr img /\
     lambda_handler event ctx out
     = if printable img
       then (inl (Exception [Lit "Malformed record detected: "; Str img]),
             out ++ [Lit "Received records:"; Lit " "; JsonDumps event]
                 :: flat_map accepted_lines pre
                    ++ [[Lit "Processing record:"; Lit " "; Str img]])
       else (inl UnicodeEncodeError,
             out ++ [Lit "Received records:"; Lit " "; JsonDumps event]
                 :: flat_map accepted_lines pre
                    ++ [[Lit "Processing record:"; Lit " "]])).
Proof.
  intros Hrecs Hbad. split.
  - rewrite !lambda_handler_spec, Hrecs, getitem_event_of. cbn [iter].
    rewrite (loop_stops pre post bad (lacks_value_not_accepted _ Hbad)).
    rewrite (loop_appends (pre ++ [bad]) (out ++ [received_line event])).
    rewrite (loop_appends (pre ++ [bad])
                          (out ++ [received_line (event_of (pre ++ [bad]))])).
    destruct (for_each process_record (pre ++ [bad]) []) as [[e|u] lines].
    + cbn [fst snd]. split; [reflexivity|].
      exists lines. now rewrite <- !app_assoc.
    + cbn [fst snd]. split; [reflexivity|].
      exists lines. now rewrite <- !app_assoc.
  - intros Hpre. destruct (lacks_value_inv _ Hbad) as (img & Hn & Hc).
    exists img. split; [exact Hn|].
    rewrite lambda_handler_spec, Hrecs. cbn [iter].
    rewrite (loop_app _ _ Hpre), for_each_cons, process_record_spec, Hn.
    destruct (printable img).
    + rewrite Hc. unfold MalformedEntry. now rewrite <- !app_assoc.
    + now rewrite <- !app_assoc.
Qed.

Lemma getitem_error (v : pyval) (k : string) (e : py_exn) :
  getitem v k = inl e -> e = TypeError \/ e = KeyError (PStr k).
Proof.
  unfold getitem. destruct v as [| | | | | |d];
    try (intros H; injection H as <-; auto).
  destruct (dict_get k d); [discriminate|].
  intros H; injection H as <-; auto.
Qed.

Lemma getitem_not_Exception (v : pyval) (k : string) (msg : text) :
  getitem v k <> inl (Exception msg).
Proof. intros H. apply getitem_error in H as [H|H]; discriminate. Qed.

Lemma new_image_not_Exception (record : pyval) (msg : text) :
  new_image record <> inl (Exception msg).
Proof.
  unfold new_image. destruct (getitem record "dynamodb") eqn:E.
  - intros H. injection H as ->. now apply getitem_not_Exception in E.
  - apply getitem_not_Exception.
Qed.

Lemma entry_id_not_Exception (img : pyval) (msg : text) :
  entry_id img <> inl (Exception msg).
Proof.
  unfold entry_id. destruct (getitem img "id") eqn:E.
  - intros H. injection H as ->. now apply getitem_not_Exception in E.
  - apply getitem_not_Exception.
Qed.

Lemma contains_not_Exception (k : string) (v : pyval) (msg : text) :
  contains k v <> inl (Exception msg).
Proof. destruct v; discriminate. Qed.

Lemma iter_not_Exception (v : pyval) (msg : text) :
  iter v <> inl (Exception msg).
Proof. destruct v; discriminate. Qed.

(** C4.  When [lambda_handler] raises an [Exception], its message is
    "Malformed record detected: " followed by the [NewImage] of the first
    record of the batch that lacks ['value']: every record before it was
    accepted. *)
Theorem C4_error_carries_new_image (ctx : C) (event : pyval)
        (out : list line) (msg : text) :
  fst (lambda_handler event ctx out) = inl (Exception msg) ->
  exists records pre bad post img,
    getitem event "Records" = inr records /\
    iter records = inr (pre ++ bad :: post) /\
    forallb accepted pre = true /\
    new_image bad = inr img /\
    contains "value" img = inr false /\
    msg = [Lit "Malformed record detected: "; Str img].
Proof.
  rewrite lambda_handler_spec.
  destruct (getitem event "Records") as [e|records] eqn:Hrecs.
  { cbn [fst]. intros H. injection H as ->.
    now apply getitem_not_Exception in Hrecs. }
  destruct (iter records) as [e|items] eqn:Hiter.
  { cbn [fst]. intros H. injection H as ->.
    now apply iter_not_Exception in Hiter. }
  destruct (for_each process_record items _) as [[e|u] out'] eqn:E;
    [|discriminate].
  cbn [fst]. intros H. injection H as ->.
  apply loop_raise_inv in E as (pre & bad & post & -> & Hpre & E).
  rewrite process_record_spec in E.
  destruct (new_image bad) as [e|img] eqn:Hn.
  { injection E as -> _. now apply new_image_not_Exception in Hn. }
  destruct (printable img); [|discriminate].
  destruct (contains "value" img) as [e|[|]] eqn:Hc.
  - injection E as -> _. now apply contains_not_Exception in Hc.
  - destruct (entry_id img) as [e|i] eqn:Hi.
    + injection E as -> _. now apply entry_id_not_Exception in Hi.
    + destruct (printable i); discriminate.
  - injection E as E _. unfold MalformedEntry in E.
    exists records, pre, bad, post, img.
    repeat (split; [auto; fail|]). congruence.
Qed.

(** C5.  For an event whose ['Records'] is the empty list,
    [lambda_handler] returns [{'statusCode': 200}] and prints the echo of
    the event only: no entry is reported. *)
Theorem C5_empty_batch_succeeds (ctx : C) (event : pyval) (out : list line) :
  getitem event "Records" = inr (PList []) ->
  lambda_handler event ctx out
  = (inr (PDict [("statusCode", PInt 200)]),
     out ++ [[Lit "Received records:"; Lit " "; JsonDumps event]]).
Proof. intros H. rewrite lambda_handler_spec, H. reflexivity. Qed.

(** C6.  There is a batch in which every entry's [NewImage] has a
    ['value'] and one entry's [NewImage] has no ['id'], on which
    [lambda_handler] raises [KeyError('id')], from the lookup in the
    line that logs the accepted entry, and returns no success result. *)
Theorem C6_missing_id_raises_KeyError :
  exists recs : list pyval,
    forallb has_value recs = true /\
    existsb (lacks "id") recs = true /\
    forall (ctx : C) (out : list line),
      fst (lambda_handler (event_of recs) ctx out)
      = inl (KeyError (PStr "id")).
Proof.
  exists [entry [("id", attr_S "1"); ("value", attr_S "x")];
          entry [("value", attr_S "y")]].
  split; [reflexivity|]. split; [reflexivity|].
  intros ctx out. rewrite lambda_handler_spec. reflexivity.
Qed.



End ValidatorContract.

(** * The contract on concrete batches *)

Section ValidatorExamples.
Import dynodb_data_validate_with_dlq.

(** Scenarios A, B and C of the specification. *)
Example scenario_A_succeeds :
  fst (lambda_handler scenario_A tt [])
  = inr (PDict [("statusCode", PInt 200)]).
Proof. reflexivity. Qed.

Example scenario_B_raises :
  fst (lambda_handler scenario_B tt [])
  = inl (Exception [Lit "Malformed record detected: ";
                    Str (PDict [("id", attr_S "2")])]).
Proof. reflexivity. Qed.

Example scenario_C_succeeds :
  lambda_handler scenario_C tt []
  = (inr (PDict [("statusCode", PInt 200)]),
     [[Lit "Received records:"; Lit " "; JsonDumps scenario_C]]).
Proof. reflexivity. Qed.

(** An id that is a lone surrogate: the entry has a ['value'] and an id,
    and the [print] of line 16 raises after the line of line 9. *)
Example surrogate_id_raises :
  lambda_handler (event_of [surrogate_id_entry]) tt []
  = (inl UnicodeEncodeError,
     [[Lit "Received records:"; Lit " ";
       JsonDumps (event_of [surrogate_id_entry])];
      [Lit "Processing record:"; Lit " ";
       Str (PDict [("id", attr_S lone_surrogate); ("value", attr_S "x")])]]).
Proof. reflexivity. Qed.

(** What comes behind the first pill does not count. *)
Example pill_then_no_id_raises :
  fst (lambda_handler (event_of pill_then_no_id) tt [])
  = inl (Exception [Lit "Malformed record detected: ";
                    Str (PDict [("id", attr_S "2")])]).
Proof. reflexivity. Qed.

(** A record that is not accepted before the record with a key missing. *)
Example no_id_then_empty_record_raises :
  fst (lambda_handler (event_of no_id_then_empty_record) tt [])
  = inl (KeyError (PStr "id")).
Proof. reflexivity. Qed.

Example string_then_empty_record_raises :
  fst (lambda_handler (event_of [PStr "a"; PDict []]) tt [])
  = inl TypeError.
Proof. reflexivity. Qed.





Lemma C3_witness :
  lambda_handler (event_of pill_between) tt []
  = (inl (Exception [Lit "Malformed record detected: ";
                     Str (PDict [("id", attr_S "2")])]),
     [[Lit "Received records:"; Lit " "; JsonDumps (event_of pill_between)];
      [Lit "Processing record:"; Lit " ";
       Str (PDict [("id", attr_S "1"); ("value", attr_S "x")])];
      [Lit "Successfully processed record with id: "; Str (PStr "1")];
      [Lit "Processing record:"; Lit " ";
       Str (PDict [("id", attr_S "2")])]]).
Proof.
  destruct (C3_first_malformed_entry_reported
              tt (event_of pill_between)
              [entry [("id", attr_S "1"); ("value", attr_S "x")]]
              [entry [("id", attr_S "3"); ("value", attr_S "z")]]
              (entry [("id", attr_S "2")]) [] eq_refl eq_refl)
    as [_ Hfirst].
  destruct (Hfirst eq_refl) as (img & Himg & Hrun).
  injection Himg as <-. exact Hrun.
Defined.

(** C3 as stated fails: the second entry is the first malformed one, and
    the error raised is [KeyError('S')], which reports no entry. *)
Lemma C3_counterexample :
  forallb has_value (firstn 1 numeric_id_then_pill) = true /\
  forallb lacks_value (skipn 1 numeric_id_then_pill) = true /\
  fst (lambda_handler (event_of numeric_id_then_pill) tt [])
  = inl (KeyError (PStr "S")) /\
  fst (lambda_handler (event_of numeric_id_then_pill) tt [])
  <> inl (Exception [Lit "Malformed record detected: ";
                     Str (PDict [("id", attr_S "2")])]).
Proof. repeat split; [reflexivity..|discriminate]. Qed.

Lemma C4_witness :
  exists records pre bad post img,
    getitem scenario_B "Records" = inr records /\
    iter records = inr (pre ++ bad :: post) /\
    forallb accepted pre = true /\
    new_image bad = inr img /\
    contains "value" img = inr false /\
    [Lit "Malformed record detected: "; Str (PDict [("id", attr_S "2")])]
    = [Lit "Malformed record detected: "; Str img].
Proof.
  exact (C4_error_carries_new_image
           tt scenario_B []
           [Lit "Malformed record detected: ";
            Str (PDict [("id", attr_S "2")])]
           eq_refl).
Defined.

Lemma C5_witness :
  lambda_handler scenario_C tt []
  = (inr (PDict [("statusCode", PInt 200)]),
     [[Lit "Received records:"; Lit " "; JsonDumps scenario_C]]).
Proof. exact (C5_empty_batch_succeeds tt scenario_C [] eq_refl). Defined.




End ValidatorExamples.

(** * The copier: the steps of a run *)

Section CopierSteps.
Import s3_to_dynodb.
Context {Response : Type}.
Variable s3_get_object : list call -> pyval -> pyval -> result Response.
Variable body_read : list call -> Response -> result (list Byte.byte).
Variable json_loads : list Byte.byte -> result pyval.
Variable table_put_item : list call -> string -> pyval -> result unit.

Local Abbreviation handler :=
  (lambda_handler s3_get_object body_read json_loads table_put_item).
Local Abbreviation insert := (insert_record table_put_item).

(** The body of the loop: the line is printed and the item is sent, or the
    item cannot be printed and is not sent. *)
Lemma insert_record_spec (record : pyval) (w : world) :
  insert record w
  = if printable record
    then (table_put_item (calls w) "dynotbl_1" record,
          {| stdout := stdout w ++ [inserting_line record];
             calls := calls w ++ [PutItem "dynotbl_1" record] |})
    else (inl UnicodeEncodeError,
          {| stdout := stdout w ++ [unfinished "Inserting record:"];
             calls := calls w |}).
Proof.
  unfold insert_record, bind. rewrite print_label_value by reflexivity.
  destruct (printable record); reflexivity.
Qed.

Lemma insert_loop_cons (record : pyval) (items : list pyval) (w : world) :
  for_each insert (record :: items) w =
    match insert record w with
    | (inl e, w') => (inl e, w')
    | (inr _, w') => for_each insert items w'
    end.
Proof. reflexivity. Qed.

(** The handler, by cases on the event and on the answers it gets. *)
Lemma copier_spec {C : Type} (event : pyval) (ctx : C) (w : world) :
  handler event ctx w =
    let w1 := {| stdout := stdout w ++ [received_line event];
                 calls := calls w |} in
    match bucket_name event with
    | inl e => (inl e, w1)
    | inr bucket =>
    match object_key event with
    | inl e => (inl e, w1)
    | inr key =>
    let w2 := after_fetch event bucket key w in
    match s3_get_object (calls w) bucket key with
    | inl e => (inl e, w2)
    | inr response =>
    match body_read (calls w2) response with
    | inl e => (inl e, w2)
    | inr content =>
    match json_loads content with
    | inl e => (inl e, w2)
    | inr records =>
    match iter records with
    | inl e => (inl e, w2)
    | inr items =>
    match for_each insert items w2 with
    | (inl e, w3) => (inl e, w3)
    | (inr _, w3) =>
        (inr (PDict [("statusCode", PInt 200);
                     ("body", PStr "Data inserted into DynamoDB")]), w3)
    end end end end end end end.
Proof.
  unfold lambda_handler, bucket_name, object_key, first_record,
    s3_field, after_fetch, bind, lift, ret, invoke, ask.
  rewrite print_label_json by reflexivity.
  cbn [write_line world_console stdout calls].
  destruct (getitem event "Records") as [e|rs]; [reflexivity|].
  destruct (getitem_int rs 0) as [e|r0]; [reflexivity|].
  destruct (getitem r0 "s3") as [e|s3]; [reflexivity|].
  destruct (getitem s3 "bucket") as [e|b]; [reflexivity|].
  destruct (getitem b "name") as [e|bucket]; [reflexivity|].
  destruct (getitem s3 "object") as [e|o]; [reflexivity|].
  destruct (getitem o "key") as [e|key]; [reflexivity|].
  destruct (s3_get_object (calls w) bucket key) as [e|response];
    [reflexivity|].
  destruct (body_read _ response) as [e|content]; [reflexivity|].
  destruct (json_loads content) as [e|records]; [reflexivity|].
  destruct (iter records) as [e|items]; [reflexivity|].
  destruct (for_each insert items _) as [[e|u] w3]; reflexivity.
Qed.
End CopierSteps.

(** * The copier's contract *)

Section CopierContract.
Import s3_to_dynodb.
Context {Response C : Type}.
Variable s3_get_object : list call -> pyval -> pyval -> result Response.
Variable body_read : list call -> Response -> result (list Byte.byte).
Variable json_loads : list Byte.byte -> result pyval.
Variable table_put_item : list call -> string -> pyval -> result unit.

Local Abbreviation handler :=
  (lambda_handler s3_get_object body_read json_loads table_put_item).
Local Abbreviation insert := (insert_record table_put_item).

(** When every item can be printed and the table takes each item at the
    moment it is sent, the loop sends one [put_item] per item, in order. *)
Lemma insert_loop_ok (items : list pyval) :
  forallb printable items = true ->
  forall w,
    (forall i r,
        nth_error items i = Some r ->
        table_put_item (calls w ++ map (PutItem "dynotbl_1") (firstn i items))
                       "dynotbl_1" r = inr tt) ->
    for_each insert items w
    = (inr tt,
       {| stdout := stdout w ++ map inserting_line items;
          calls := calls w ++ map (PutItem "dynotbl_1") items |}).
Proof.
  induction items as [|r items IH]; intros Hp w Hput.
  - cbn. rewrite !app_nil_r. now destruct w.
  - cbn [forallb] in Hp. apply andb_true_iff in Hp as [Hr Hp].
    rewrite insert_loop_cons, insert_record_spec, Hr.
    pose proof (Hput 0%nat r eq_refl) as H0. cbn [firstn map] in H0.
    rewrite app_nil_r in H0. rewrite H0, (IH Hp).
    + cbn [stdout calls map]. now rewrite <- !app_assoc.
    + intros i r' Hi. cbn [calls]. rewrite <- app_assoc.
      exact (Hput (S i) r' Hi).
Qed.

(** The loop reads the requests sent so far and never standard output:
    from two states with the same requests it ends in the same way,
    prints the same lines and sends the same [put_item] requests. *)
Lemma insert_loop_frame (items : list pyval) :
  forall w w',
    calls w = calls w' ->
    exists r lines sent,
      for_each insert items w
      = (r, {| stdout := stdout w ++ lines;
               calls := calls w ++ map (PutItem "dynotbl_1") sent |}) /\
      for_each insert items w'
      = (r, {| stdout := stdout w' ++ lines;
               calls := calls w' ++ map (PutItem "dynotbl_1") sent |}).
Proof.
  induction items as [|r items IH]; intros w w' Hc.
  - exists (inr tt), [], []. cbn. rewrite !app_nil_r.
    destruct w, w'. auto.
  - rewrite !insert_loop_cons, !insert_record_spec.
    rewrite <- Hc.
    destruct (printable r).
    2:{ exists (inl UnicodeEncodeError), [unfinished "Inserting record:"], [].
        cbn [map]. rewrite !app_nil_r. auto. }
    destruct (table_put_item (calls w) "dynotbl_1" r) as [e|[]].
    + exists (inl e), [inserting_line r], [r]. auto.
    + destruct (IH {| stdout := stdout w ++ [inserting_line r];
                      calls := calls w ++ [PutItem "dynotbl_1" r] |}
                   {| stdout := stdout w' ++ [inserting_line r];
                      calls := calls w ++ [PutItem "dynotbl_1" r] |} eq_refl)
        as (res & lines & sent & -> & ->).
      exists res, (inserting_line r :: lines), (r :: sent).
      cbn [stdout calls map]. rewrite <- !app_assoc. auto.
Qed.

(** C9 (amended).  For every event whose first record names a bucket and a
    key, when S3 returns the object, the object parses as a JSON list of
    records and the table takes each record at the moment it is written,
    [lambda_handler] prints and sends one [put_item] on the table
    [dynotbl_1] per record of the list, in the order of the list, after
    the one [get_object], and returns
    [{'statusCode': 200, 'body': 'Data inserted into DynamoDB'}].  A
    record is a dictionary; the same holds of any items that can be
    printed. *)
Theorem C9_copier_writes_each_record
        (ctx : C) (event bucket key : pyval) (response : Response)
        (content : list Byte.byte) (records : list pyval) (w : world) :
  bucket_name event = inr bucket ->
  object_key event = inr key ->
  s3_get_object (calls w) bucket key = inr response ->
  body_read (calls w ++ [GetObject bucket key]) response = inr content ->
  json_loads content = inr (PList records) ->
  forallb printable records = true ->
  (forall i r,
      nth_error records i = Some r ->
      table_put_item
        (calls w ++ GetObject bucket key
                 :: map (PutItem "dynotbl_1") (firstn i records))
        "dynotbl_1" r = inr tt) ->
  handler event ctx w
  = (inr (PDict [("statusCode", PInt 200);
                 ("body", PStr "Data inserted into DynamoDB")]),
     {| stdout := stdout w
                  ++ [Lit "Received event:"; Lit " "; JsonDumps event]
                     :: map (fun r => [Lit "Inserting record:"; Lit " ";
                                       Str r]) records;
        calls := calls w ++ GetObject bucket key
                         :: map (PutItem "dynotbl_1") records |}).
Proof.
  intros Hb Hk Hget Hread Hload Hp Hput.
  rewrite copier_spec, Hb, Hk. cbn zeta.
  rewrite Hget. cbn [after_fetch calls]. rewrite Hread, Hload. cbn [iter].
  rewrite (insert_loop_ok _ Hp).
  - cbn [after_fetch stdout calls]. now rewrite <- !app_assoc.
  - intros i r Hi. cbn [after_fetch calls]. rewrite <- app_assoc.
    exact (Hput i r Hi).
Qed.

(** C10.  The handler reads the event through [event['Records'][0]] only.
    Two events with the same first record (or the same error on the way
    to it) give runs with the same outcome, the same requests and, after
    the echo of the event, the same lines.  The requests of a run are
    none, or one [get_object] for the bucket and key of the first record
    followed by [put_item] requests: nothing is fetched for the other
    records of the event. *)
Theorem C10_only_first_record_is_read
        (ctx ctx' : C) (event event' : pyval) (w : world) :
  first_record event = first_record event' ->
  fst (handler event ctx w) = fst (handler event' ctx' w) /\
  calls (snd (handler event ctx w)) = calls (snd (handler event' ctx' w)) /\
  (exists lines,
      stdout (snd (handler event ctx w))
      = stdout w ++ received_line event :: lines /\
      stdout (snd (handler event' ctx' w))
      = stdout w ++ received_line event' :: lines) /\
  (calls (snd (handler event ctx w)) = calls w \/
   exists bucket key items,
     bucket_name event = inr bucket /\ object_key event = inr key /\
     calls (snd (handler event ctx w))
     = calls w ++ GetObject bucket key :: map (PutItem "dynotbl_1") items).
Proof.
  intros Hfirst. rewrite !copier_spec.
  unfold bucket_name, object_key. rewrite <- Hfirst.
  cbn zeta.
  destruct (first_record event) as [e|r0].
  { cbn [fst snd calls stdout]. repeat split; eauto. }
  destruct (s3_field "bucket" "name" r0) as [e|bucket].
  { cbn [fst snd calls stdout]. repeat split; eauto. }
  destruct (s3_field "object" "key" r0) as [e|key].
  { cbn [fst snd calls stdout]. repeat split; eauto. }
  unfold after_fetch. cbn [calls].
  assert (Hstop : forall (e : py_exn),
    (@inl py_exn pyval e = inl e) /\
    calls w ++ [GetObject bucket key] = calls w ++ [GetObject bucket key] /\
    (exists lines,
        stdout w ++ [received_line event]
        = stdout w ++ received_line event :: lines /\
        stdout w ++ [received_line event']
        = stdout w ++ received_line event' :: lines) /\
    (calls w ++ [GetObject bucket key] = calls w \/
     exists bucket0 key0 items,
       @inr py_exn pyval bucket = inr bucket0 /\
       @inr py_exn pyval key = inr key0 /\
       calls w ++ [GetObject bucket key]
       = calls w ++ GetObject bucket0 key0 :: map (PutItem "dynotbl_1") items)).
  { intros e. repeat split; [exists []; auto|].
    right. exists bucket, key, []. auto. }
  destruct (s3_get_object (calls w) bucket key) as [e|response];
    [exact (Hstop e)|].
  destruct (body_read _ response) as [e|content]; [exact (Hstop e)|].
  destruct (json_loads content) as [e|records]; [exact (Hstop e)|].
  destruct (iter records) as [e|items]; [exact (Hstop e)|].
  clear Hstop.
  destruct (insert_loop_frame items
              {| stdout := stdout w ++ [received_line event];
                 calls := calls w ++ [GetObject bucket key] |}
              {| stdout := stdout w ++ [received_line event'];
                 calls := calls w ++ [GetObject bucket key] |} eq_refl)
    as (res & lines & sent & -> & ->).
  cbn [stdout calls].
  destruct res as [e|u]; cbn [fst snd stdout calls];
    (split; [reflexivity|]; split; [reflexivity|]; split;
     [exists lines; now rewrite <- !app_assoc|];
     right; exists bucket, key, sent; now rewrite <- !app_assoc).
Qed.
End CopierContract.

(** * The copier on sample worlds *)

Section CopierExamples.
Import s3_to_dynodb.

Lemma C9_witness :
  lambda_handler sample_get_object sample_body_read sample_json_loads
                 sample_put_item sample_event tt empty_world
  = (inr (PDict [("statusCode", PInt 200);
                 ("body", PStr "Data inserted into DynamoDB")]),
     {| stdout := [[Lit "Received event:"; Lit " "; JsonDumps sample_event];
                   [Lit "Inserting record:"; Lit " ";
                    Str (PDict [("id", PStr "1")])];
                   [Lit "Inserting record:"; Lit " ";
                    Str (PDict [("id", PStr "2")])]];
        calls := [GetObject (PStr "uploads") (PStr "data.json");
                  PutItem "dynotbl_1" (PDict [("id", PStr "1")]);
                  PutItem "dynotbl_1" (PDict [("id", PStr "2")])] |}).
Proof.
  exact (C9_copier_writes_each_record
           sample_get_object sample_body_read sample_json_loads
           sample_put_item tt sample_event
           (PStr "uploads") (PStr "data.json")
           sample_content sample_content sample_records empty_world
           eq_refl eq_refl eq_refl eq_refl eq_refl eq_refl
           (fun i r _ => eq_refl)).
Defined.

(** C9 as stated fails: the event names a bucket and a key, the object
    parses as a JSON list of one record, and the table refuses the record,
    which has a float in it.  The handler raises the [TypeError] of
    [put_item] and returns nothing. *)
Lemma C9_counterexample :
  bucket_name priced_event = inr (PStr "uploads") /\
  object_key priced_event = inr (PStr "prices.json") /\
  priced_json_loads priced_content
  = inr (PList [PDict [("id", PStr "1");
                       ("price", PFloat one_and_a_half)]]) /\
  lambda_handler priced_get_object sample_body_read priced_json_loads
                 float_refusing_put_item priced_event tt empty_world
  = (inl TypeError,
     {| stdout := [[Lit "Received event:"; Lit " "; JsonDumps priced_event];
                   [Lit "Inserting record:"; Lit " ";
                    Str (PDict [("id", PStr "1");
                                ("price", PFloat one_and_a_half)])]];
        calls := [GetObject (PStr "uploads") (PStr "prices.json");
                  PutItem "dynotbl_1"
                          (PDict [("id", PStr "1");
                                  ("price", PFloat one_and_a_half)])] |}).
Proof. repeat split. Qed.

Lemma C10_witness :
  first_record sample_event
  = first_record (notification [s3_record "uploads" "data.json"]) /\
  fst (lambda_handler sample_get_object sample_body_read sample_json_loads
                      sample_put_item sample_event tt empty_world)
  = fst (lambda_handler sample_get_object sample_body_read sample_json_loads
                        sample_put_item
                        (notification [s3_record "uploads" "data.json"])
                        tt empty_world) /\
  calls (snd (lambda_handler sample_get_object sample_body_read
                             sample_json_loads sample_put_item
                             sample_event tt empty_world))
  = calls (snd (lambda_handler sample_get_object sample_body_read
                               sample_json_loads sample_put_item
                               (notification [s3_record "uploads" "data.json"])
                               tt empty_world)).
Proof.
  split; [reflexivity|].
  destruct (C10_only_first_record_is_read
              sample_get_object sample_body_read sample_json_loads
              sample_put_item tt tt sample_event
              (notification [s3_record "uploads" "data.json"])
              empty_world eq_refl)
    as (Hres & Hcalls & _).
  split; [exact Hres|exact Hcalls].
Defined.
End CopierExamples.

(** * The validator: what a run tells about the batch *)

Section ValidatorFurther.
Import dynodb_data_validate_with_dlq.
Context {C : Type}.

(** An accepted record has the shape of a change-feed entry all the way
    down: being accepted is not possible with a list or a string where a
    dictionary is expected. *)
Lemma accepted_full_shape (record : pyval) :
  accepted record = true -> full_shape record = true.
Proof.
  intros H. destruct (accepted_inv _ H) as (img & i & Hn & Hc & Hi & _).
  revert Hn. unfold new_image, full_shape, getitem.
  destruct record as [| | | | | |r]; try discriminate.
  destruct (dict_get "dynamodb" r) as [d|]; [|discriminate].
  destruct d as [| | | | | |d]; try discriminate.
  destruct (dict_get "NewImage" d) as [img'|]; [|discriminate].
  intros Himg. injection Himg as ->.
  revert Hc Hi. unfold entry_id, getitem, contains.
  destruct img as [| | | | | |img]; try discriminate.
  destruct (dict_get "value" img); [|discriminate]. intros _.
  destruct (dict_get "id" img) as [i'|]; [|discriminate].
  destruct i' as [| | | | | |i']; try discriminate.
  destruct (dict_get "S" i'); [reflexivity|discriminate].
Qed.

(** X1.  Whenever [lambda_handler] returns, the value is
    [{'statusCode': 200}], ['Records'] could be iterated, every record it
    ran through has the full shape of an entry (dictionaries down to a
    [NewImage] with a ['value'] and an ['id'] with an ['S']), and the lines
    printed are the echo of the event and the two lines of each entry. *)
Theorem X1_success_means_every_entry_valid (ctx : C) (event r : pyval)
        (out : list line) :
  fst (lambda_handler event ctx out) = inr r ->
  r = PDict [("statusCode", PInt 200)] /\
  exists records items,
    getitem event "Records" = inr records /\
    iter records = inr items /\
    forallb full_shape items = true /\
    snd (lambda_handler event ctx out)
    = out ++ received_line event :: flat_map accepted_lines items.
Proof.
  rewrite lambda_handler_spec.
  destruct (getitem event "Records") as [e|records]; [discriminate|].
  destruct (iter records) as [e|items] eqn:Hiter; [discriminate|].
  destruct (for_each process_record items _) as [[e|u] out'] eqn:E;
    [discriminate|].
  cbn [fst snd]. intros H. injection H as <-. split; [reflexivity|].
  apply loop_return_inv in E as [Hall ->].
  exists records, items.
  split; [reflexivity|]. split; [exact Hiter|]. split.
  - apply forallb_forall. intros x Hx. rewrite forallb_forall in Hall.
    apply accepted_full_shape, Hall, Hx.
  - now rewrite <- app_assoc.
Qed.

Lemma iter_error (v : pyval) (e : py_exn) : iter v = inl e -> e = TypeError.
Proof. destruct v; try discriminate; intros H; now injection H as <-. Qed.

Lemma contains_error (k : string) (v : pyval) (e : py_exn) :
  contains k v = inl e -> e = TypeError.
Proof. destruct v; try discriminate; intros H; now injection H as <-. Qed.

Lemma getitem_validator_error (v : pyval) (k : string) (e : py_exn) :
  In k validator_keys -> getitem v k = inl e -> validator_error e = true.
Proof.
  intros Hk H. apply getitem_error in H as [->| ->]; [reflexivity|].
  cbn [validator_error]. apply existsb_exists. exists k.
  split; [exact Hk|apply String.eqb_refl].
Qed.

Ltac key_error H :=
  refine (getitem_validator_error _ _ _ _ H); cbn; tauto.

Lemma process_record_error (record : pyval) (out out' : list line)
      (e : py_exn) :
  process_record record out = (inl e, out') -> validator_error e = true.
Proof.
  rewrite process_record_spec. unfold new_image, entry_id.
  destruct (getitem record "dynamodb") as [e0|d] eqn:Hd.
  { intros H. injection H as <- _. key_error Hd. }
  destruct (getitem d "NewImage") as [e0|img] eqn:Hn.
  { intros H. injection H as <- _. key_error Hn. }
  destruct (printable img); [|intros H; now injection H as <- _].
  destruct (contains "value" img) as [e0|[|]] eqn:Hc.
  - intros H. injection H as <- _.
    now rewrite (contains_error _ _ _ Hc).
  - destruct (getitem img "id") as [e0|i] eqn:Hi.
    { intros H. injection H as <- _. key_error Hi. }
    destruct (getitem i "S") as [e0|s] eqn:Hs.
    { intros H. injection H as <- _. key_error Hs. }
    destruct (printable s); [discriminate|].
    intros H. now injection H as <- _.
  - intros H. injection H as <- _. reflexivity.
Qed.

(** X2.  Whenever [lambda_handler] raises, the error is one of four
    kinds: the [Exception] of line 14 with its "Malformed record detected"
    message, a [KeyError] on one of ['Records'], ['dynamodb'],
    ['NewImage'], ['id'] and ['S'], a [TypeError], or the
    [UnicodeEncodeError] of a [print] on text with a lone surrogate.  It
    never raises an [IndexError] or an error of a library. *)
Theorem X2_validator_errors (ctx : C) (event : pyval) (out : list line)
        (e : py_exn) :
  fst (lambda_handler event ctx out) = inl e ->
  validator_error e = true.
Proof.
  rewrite lambda_handler_spec.
  destruct (getitem event "Records") as [e0|records] eqn:Hrecs.
  { cbn [fst]. intros H. injection H as <-. key_error Hrecs. }
  destruct (iter records) as [e0|items] eqn:Hiter.
  { cbn [fst]. intros H. injection H as <-.
    now rewrite (iter_error _ _ Hiter). }
  destruct (for_each process_record items _) as [[e0|u] out'] eqn:E;
    [|discriminate].
  cbn [fst]. intros H. injection H as <-.
  apply loop_raise_inv in E as (pre & bad & post & _ & _ & E).
  exact (process_record_error _ _ _ _ E).
Qed.


(** A string is not a record: the lookup of ['dynamodb'] raises. *)
Lemma process_string (s : string) (out : list line) :
  process_record (PStr s) out = (inl TypeError, out).
Proof. reflexivity. Qed.

Lemma chars_nonempty (c : ascii) (s : string) : chars (String c s) <> [].
Proof.
  unfold chars. cbn [split_chars].
  destruct (split_chars s) as [cont cs].
  destruct (is_continuation c); discriminate.
Qed.

(** X4.  When ['Records'] is there and is not a list, nothing is validated
    and only the echo of the event is printed.  An empty string and an
    empty dictionary are iterated as empty batches, and [lambda_handler]
    returns [{'statusCode': 200}]; every other value ends the run in a
    [TypeError], on the value itself when it cannot be iterated and else on
    the first character or key it yields. *)
Theorem X4_records_not_a_list (ctx : C) (event records : pyval)
        (out : list line) :
  getitem event "Records" = inr records ->
  is_list records = false ->
  lambda_handler event ctx out
  = (match iter records with
     | inr [] => inr (PDict [("statusCode", PInt 200)])
     | _ => inl TypeError
     end,
     out ++ [received_line event]).
Proof.
  intros Hrecs Hlist. rewrite lambda_handler_spec, Hrecs.
  destruct records as [| | | |s|l|d]; try reflexivity.
  - destruct s as [|c s]; [reflexivity|].
    cbn [iter]. pose proof (chars_nonempty c s) as Hne.
    destruct (chars (String c s)) as [|x xs]; [contradiction|].
    cbn [map]. now rewrite for_each_cons, process_string.
  - discriminate.
  - destruct d as [|[k v] d]; [reflexivity|].
    cbn [iter map fst]. now rewrite for_each_cons, process_string.
Qed.

Lemma id_value_entry_accepted (p : string * pyval) :
  encodable (fst p) = true -> accepted (id_value_entry p) = true.
Proof. destruct p as [s v]. cbn. intros ->. reflexivity. Qed.

Lemma id_value_entry_lines (p : string * pyval) :
  accepted_lines (id_value_entry p) = id_value_lines p.
Proof. destruct p. reflexivity. Qed.

(** X5.  The check is on the presence of ['value'], never on what is
    under it.  For every list of ids and values, whatever the values are
    ([None] included), as long as the ids have no lone surrogate, the
    batch of the entries [{'id': {'S': id}, 'value': value}] is accepted:
    [lambda_handler] returns [{'statusCode': 200}] and prints, after the
    echo of the event, the image and the id of each entry in batch
    order. *)
Theorem X5_any_value_is_accepted (ctx : C) (ps : list (string * pyval))
        (out : list line) :
  forallb (fun p => encodable (fst p)) ps = true ->
  lambda_handler (event_of (map id_value_entry ps)) ctx out
  = (inr (PDict [("statusCode", PInt 200)]),
     out ++ received_line (event_of (map id_value_entry ps))
         :: flat_map id_value_lines ps).
Proof.
  intros Hids. rewrite lambda_handler_spec, getitem_event_of. cbn [iter].
  rewrite loop_accepted.
  - rewrite <- app_assoc. cbn [app]. do 3 f_equal.
    clear Hids. induction ps as [|p ps IH]; [reflexivity|].
    cbn [map flat_map]. now rewrite id_value_entry_lines, IH.
  - apply forallb_forall. intros r Hr.
    apply in_map_iff in Hr as (p & <- & Hp).
    rewrite forallb_forall in Hids.
    apply id_value_entry_accepted, Hids, Hp.
Qed.
End ValidatorFurther.

(** * The copier: what a run sends, and when it stops *)

Section CopierFurther.
Import s3_to_dynodb.
Context {Response C : Type}.
Variable s3_get_object : list call -> pyval -> pyval -> result Response.
Variable body_read : list call -> Response -> result (list Byte.byte).
Variable json_loads : list Byte.byte -> result pyval.
Variable table_put_item : list call -> string -> pyval -> result unit.

Local Abbreviation handler :=
  (lambda_handler (C:=C) s3_get_object body_read json_loads table_put_item).
Local Abbreviation insert := (insert_record table_put_item).
Local Abbreviation fetch := (fetch_items s3_get_object body_read json_loads).

(** The handler, by cases on the event, on what is fetched and on how the
    loop ends. *)
Lemma copier_fetch_spec (event : pyval) (ctx : C) (w : world) :
  handler event ctx w =
    match bucket_name event with
    | inl e => (inl e, {| stdout := stdout w ++ [received_line event];
                          calls := calls w |})
    | inr bucket =>
    match object_key event with
    | inl e => (inl e, {| stdout := stdout w ++ [received_line event];
                          calls := calls w |})
    | inr key =>
    match fetch (calls w) bucket key with
    | inl e => (inl e, after_fetch event bucket key w)
    | inr items =>
    match for_each insert items (after_fetch event bucket key w) with
    | (inl e, w') => (inl e, w')
    | (inr _, w') =>
        (inr (PDict [("statusCode", PInt 200);
                     ("body", PStr "Data inserted into DynamoDB")]), w')
    end end end end.
Proof.
  rewrite copier_spec. cbn zeta. unfold fetch_items.
  destruct (bucket_name event) as [e|bucket]; [reflexivity|].
  destruct (object_key event) as [e|key]; [reflexivity|].
  destruct (s3_get_object (calls w) bucket key) as [e|response];
    [reflexivity|].
  cbn [after_fetch calls].
  destruct (body_read _ response) as [e|content]; [reflexivity|].
  destruct (json_loads content) as [e|records]; reflexivity.
Qed.

(** The writes the table takes are sent and logged, and the loop goes on
    with the rest. *)
Lemma insert_loop_app (pre rest : list pyval) :
  forallb printable pre = true ->
  forall w,
    (forall i r,
        nth_error pre i = Some r ->
        table_put_item (calls w ++ map (PutItem "dynotbl_1") (firstn i pre))
                       "dynotbl_1" r = inr tt) ->
    for_each insert (pre ++ rest) w
    = for_each insert rest
               {| stdout := stdout w ++ map inserting_line pre;
                  calls := calls w ++ map (PutItem "dynotbl_1") pre |}.
Proof.
  induction pre as [|r pre IH]; intros Hp w Hput.
  - cbn. rewrite !app_nil_r. now destruct w.
  - cbn [forallb] in Hp. apply andb_true_iff in Hp as [Hr Hp].
    cbn [app]. rewrite insert_loop_cons, insert_record_spec, Hr.
    pose proof (Hput 0%nat r eq_refl) as H0. cbn [firstn map] in H0.
    rewrite app_nil_r in H0. rewrite H0, (IH Hp).
    + cbn [stdout calls map]. now rewrite <- !app_assoc.
    + intros i r' Hi. cbn [calls]. rewrite <- app_assoc.
      exact (Hput (S i) r' Hi).
Qed.

(** The loop returns only when the table took every write. *)
Lemma insert_loop_return_inv (items : list pyval) :
  forall (w w' : world) (u : unit),
    for_each insert items w = (inr u, w') ->
    w' = {| stdout := stdout w ++ map inserting_line items;
            calls := calls w ++ map (PutItem "dynotbl_1") items |} /\
    forall i r,
      nth_error items i = Some r ->
      table_put_item (calls w ++ map (PutItem "dynotbl_1") (firstn i items))
                     "dynotbl_1" r = inr tt.
Proof.
  induction items as [|x items IH]; intros w w' u H.
  - cbn in H. injection H as <-. split.
    + cbn. rewrite !app_nil_r. now destruct w.
    + intros [|i] r Hi; discriminate Hi.
  - rewrite insert_loop_cons, insert_record_spec in H.
    destruct (printable x); [|discriminate].
    destruct (table_put_item (calls w) "dynotbl_1" x) as [e|[]] eqn:Hx;
      [discriminate|].
    apply IH in H as [-> Hrest]. cbn [stdout calls] in *. split.
    + cbn [map]. now rewrite <- !app_assoc.
    + intros [|i] r Hi.
      * injection Hi as <-. cbn [firstn map]. now rewrite app_nil_r.
      * cbn [firstn map]. specialize (Hrest i r Hi).
        now rewrite <- app_assoc in Hrest.
Qed.

(** However the loop ends, it has sent and logged a prefix of the items;
    behind their lines there is at most the label of the line of an item
    that could not be printed. *)
Lemma insert_loop_shape (items : list pyval) :
  forall (w w' : world) (r : result unit),
    for_each insert items w = (r, w') ->
    exists n tail,
      w' = {| stdout := stdout w ++ map inserting_line (firstn n items)
                                 ++ tail;
              calls := calls w
                       ++ map (PutItem "dynotbl_1") (firstn n items) |} /\
      (tail = [] \/ tail = [[Lit "Inserting record:"; Lit " "]]).
Proof.
  induction items as [|x items IH]; intros w w' r H.
  - cbn in H. injection H as _ <-. exists 0%nat, [].
    cbn. rewrite !app_nil_r. split; [now destruct w|auto].
  - rewrite insert_loop_cons, insert_record_spec in H.
    destruct (printable x).
    2:{ injection H as _ <-.
        exists 0%nat, [[Lit "Inserting record:"; Lit " "]].
        cbn. rewrite app_nil_r. auto. }
    destruct (table_put_item (calls w) "dynotbl_1" x) as [e|[]].
    + injection H as _ <-. exists 1%nat, [].
      cbn [firstn map]. rewrite app_nil_r. auto.
    + apply IH in H as (n & tail & -> & Htail). exists (S n), tail.
      cbn [stdout calls firstn map]. rewrite <- !app_assoc. auto.
Qed.

(** A run in which everything is fetched and every write is taken. *)
Lemma copier_run_ok (ctx : C) (event bucket key : pyval)
      (items : list pyval) (w : world) :
  bucket_name event = inr bucket ->
  object_key event = inr key ->
  fetch (calls w) bucket key = inr items ->
  forallb printable items = true ->
  (forall i r,
      nth_error items i = Some r ->
      table_put_item
        (calls w ++ GetObject bucket key
                 :: map (PutItem "dynotbl_1") (firstn i items))
        "dynotbl_1" r = inr tt) ->
  handler event ctx w
  = (inr (PDict [("statusCode", PInt 200);
                 ("body", PStr "Data inserted into DynamoDB")]),
     after_writes event bucket key items w).
Proof.
  intros Hb Hk Hf Hp Hput. rewrite copier_fetch_spec, Hb, Hk, Hf.
  rewrite (insert_loop_ok _ _ Hp).
  - unfold after_writes, after_fetch. cbn [stdout calls].
    now rewrite <- !app_assoc.
  - intros i r Hi. cbn [after_fetch calls]. rewrite <- app_assoc.
    exact (Hput i r Hi).
Qed.

(** X6.  When the bucket name or the object key cannot be read from the
    event (a key is missing on the way, or a value on the way is not a
    dictionary), [lambda_handler] raises the error of that lookup, the
    bucket's first, and has sent nothing to S3 or to the table: only the
    echo of the event was printed. *)
Theorem X6_unreadable_event_sends_nothing (ctx : C) (event : pyval)
        (e : py_exn) (w : world) :
  bucket_name event = inl e \/
  (exists bucket, bucket_name event = inr bucket /\
                  object_key event = inl e) ->
  handler event ctx w
  = (inl e, {| stdout := stdout w ++ [received_line event];
               calls := calls w |}).
Proof.
  intros [Hb|(bucket & Hb & Hk)]; rewrite copier_fetch_spec, Hb;
    [|rewrite Hk]; reflexivity.
Qed.

(** X7.  For an event whose ['Records'] is the empty list,
    [lambda_handler] raises [IndexError] from [event['Records'][0]] and
    sends nothing. *)
Theorem X7_no_records_raises_IndexError (ctx : C) (event : pyval)
        (w : world) :
  getitem event "Records" = inr (PList []) ->
  handler event ctx w
  = (inl IndexError, {| stdout := stdout w ++ [received_line event];
                        calls := calls w |}).
Proof.
  intros Hrecs. rewrite copier_fetch_spec.
  unfold bucket_name, first_record. rewrite Hrecs. reflexivity.
Qed.

(** X8.  When the object cannot be fetched, read or parsed, or what was
    parsed cannot be iterated, [lambda_handler] raises that error after
    the one [get_object] request and writes nothing to the table. *)
Theorem X8_failed_fetch_writes_nothing (ctx : C)
        (event bucket key : pyval) (e : py_exn) (w : world) :
  bucket_name event = inr bucket ->
  object_key event = inr key ->
  fetch (calls w) bucket key = inl e ->
  handler event ctx w
  = (inl e, {| stdout := stdout w ++ [received_line event];
               calls := calls w ++ [GetObject bucket key] |}).
Proof.
  intros Hb Hk Hf. rewrite copier_fetch_spec, Hb, Hk, Hf. reflexivity.
Qed.

(** X9.  Writes are not undone.  When the table takes the items [pre] and
    refuses the next item [r] with the error [e], all of them items that
    can be printed, [lambda_handler] raises [e]; the [put_item] requests
    it has sent are those of [pre] and of [r], in order, each after its
    "Inserting record" line, and nothing is sent or printed for the items
    behind [r]. *)
Theorem X9_refused_write_keeps_earlier_writes (ctx : C)
        (event bucket key : pyval) (pre post : list pyval) (r : pyval)
        (e : py_exn) (w : world) :
  bucket_name event = inr bucket ->
  object_key event = inr key ->
  fetch (calls w) bucket key = inr (pre ++ r :: post) ->
  forallb printable (pre ++ [r]) = true ->
  (forall i x,
      nth_error pre i = Some x ->
      table_put_item
        (calls w ++ GetObject bucket key
                 :: map (PutItem "dynotbl_1") (firstn i pre))
        "dynotbl_1" x = inr tt) ->
  table_put_item
    (calls w ++ GetObject bucket key :: map (PutItem "dynotbl_1") pre)
    "dynotbl_1" r = inl e ->
  handler event ctx w
  = (inl e, after_writes event bucket key (pre ++ [r]) w).
Proof.
  intros Hb Hk Hf Hp Hpre Hr. rewrite copier_fetch_spec, Hb, Hk, Hf.
  rewrite forallb_app in Hp. apply andb_true_iff in Hp as [Hppre Hpr].
  cbn [forallb] in Hpr. rewrite andb_true_r in Hpr.
  rewrite (insert_loop_app _ _ Hppre).
  - rewrite insert_loop_cons, insert_record_spec, Hpr.
    cbn [after_fetch stdout calls]. rewrite <- app_assoc. cbn [app].
    rewrite Hr. unfold after_writes. rewrite !map_app. cbn [map].
    now rewrite <- !app_assoc.
  - intros i x Hi. cbn [after_fetch calls]. rewrite <- app_assoc.
    exact (Hpre i x Hi).
Qed.

(** X10.  What a run adds to the state always has one form.  Earlier
    output and requests stay in place.  After the echo of the event there
    is either nothing more, or one [get_object] for the bucket and key of
    the first record, followed by [put_item] requests on [dynotbl_1] for
    a prefix of the parsed items, with one "Inserting record" line per
    request, in the same order; behind these lines there is at most the
    label of the line of an item that could not be printed, which was
    not sent. *)
Theorem X10_log_and_requests_agree (ctx : C) (event : pyval) (w : world) :
  snd (handler event ctx w)
  = {| stdout := stdout w ++ [received_line event]; calls := calls w |} \/
  exists bucket key sent tail,
    bucket_name event = inr bucket /\
    object_key event = inr key /\
    snd (handler event ctx w)
    = {| stdout := stdout (after_writes event bucket key sent w) ++ tail;
         calls := calls (after_writes event bucket key sent w) |} /\
    (tail = [] \/ tail = [[Lit "Inserting record:"; Lit " "]]) /\
    (sent = [] \/
     exists items n,
       fetch (calls w) bucket key = inr items /\ sent = firstn n items).
Proof.
  rewrite copier_fetch_spec.
  destruct (bucket_name event) as [e|bucket]; [now left|].
  destruct (object_key event) as [e|key]; [now left|].
  right. exists bucket, key.
  destruct (fetch (calls w) bucket key) as [e|items].
  { exists [], []. cbn [snd]. unfold after_writes, after_fetch.
    cbn [map stdout calls]. rewrite app_nil_r. auto 10. }
  destruct (for_each insert items _) as [r w'] eqn:E.
  apply insert_loop_shape in E as (n & tail & -> & Htail).
  exists (firstn n items), tail.
  split; [reflexivity|]. split; [reflexivity|]. split; [|split].
  - destruct r; cbn [snd]; unfold after_writes, after_fetch;
      cbn [stdout calls]; now rewrite <- !app_assoc.
  - exact Htail.
  - right. exists items, n. auto.
Qed.

(** X11.  Whenever [lambda_handler] returns, the value is
    [{'statusCode': 200, 'body': 'Data inserted into DynamoDB'}], the
    object named by the first record was fetched and parsed, and every
    item the loop ran through was sent to the table and taken by it. *)
Theorem X11_success_means_every_item_written (ctx : C) (event r : pyval)
        (w : world) :
  fst (handler event ctx w) = inr r ->
  r = PDict [("statusCode", PInt 200);
             ("body", PStr "Data inserted into DynamoDB")] /\
  exists bucket key items,
    bucket_name event = inr bucket /\
    object_key event = inr key /\
    fetch (calls w) bucket key = inr items /\
    snd (handler event ctx w) = after_writes event bucket key items w /\
    forall i x,
      nth_error items i = Some x ->
      table_put_item
        (calls w ++ GetObject bucket key
                 :: map (PutItem "dynotbl_1") (firstn i items))
        "dynotbl_1" x = inr tt.
Proof.
  rewrite copier_fetch_spec.
  destruct (bucket_name event) as [e|bucket]; [discriminate|].
  destruct (object_key event) as [e|key]; [discriminate|].
  destruct (fetch (calls w) bucket key) as [e|items] eqn:Hf;
    [discriminate|].
  destruct (for_each insert items _) as [[e|u] w'] eqn:E; [discriminate|].
  cbn [fst snd]. intros H. injection H as <-. split; [reflexivity|].
  apply insert_loop_return_inv in E as [-> Hput].
  exists bucket, key, items.
  split; [reflexivity|]. split; [reflexivity|]. split; [exact Hf|].
  split.
  - unfold after_writes, after_fetch. cbn [stdout calls].
    now rewrite <- !app_assoc.
  - intros i x Hi. specialize (Hput i x Hi).
    cbn [after_fetch calls] in Hput. now rewrite <- app_assoc in Hput.
Qed.

(** X12.  Nothing is remembered from one delivery to the next.  When the
    object stays the same, its items can be printed and the table takes
    them, two deliveries of one event, one after the other, fetch the
    object twice and send every write twice. *)
Theorem X12_second_delivery_writes_again (ctx ctx' : C)
        (event bucket key : pyval) (items : list pyval) (w : world) :
  bucket_name event = inr bucket ->
  object_key event = inr key ->
  (forall h, fetch h bucket key = inr items) ->
  forallb printable items = true ->
  (forall h x, In x items -> table_put_item h "dynotbl_1" x = inr tt) ->
  bind (handler event ctx) (fun _ => handler event ctx') w
  = (inr (PDict [("statusCode", PInt 200);
                 ("body", PStr "Data inserted into DynamoDB")]),
     after_writes event bucket key items
                  (after_writes event bucket key items w)).
Proof.
  intros Hb Hk Hf Hp Hput.
  assert (Hrun : forall c w0,
             handler event c w0
             = (inr (PDict [("statusCode", PInt 200);
                            ("body", PStr "Data inserted into DynamoDB")]),
                after_writes event bucket key items w0)).
  { intros c w0. apply copier_run_ok; auto.
    intros i x Hi. apply Hput. eapply nth_error_In, Hi. }
  unfold bind. now rewrite !Hrun.
Qed.
End CopierFurther.

(** * Further runs on concrete events *)

Section FurtherExamples.

(** An item that is a string with a lone surrogate: the label of its line
    is written, the write of the item raises, and nothing is sent to the
    table. *)
Example copier_unprintable_item :
  s3_to_dynodb.lambda_handler
    surrogate_get_object sample_body_read surrogate_json_loads
    sample_put_item surrogate_event tt empty_world
  = (inl UnicodeEncodeError,
     {| s3_to_dynodb.stdout :=
          [[Lit "Received event:"; Lit " "; JsonDumps surrogate_event];
           [Lit "Inserting record:"; Lit " "]];
        s3_to_dynodb.calls :=
          [s3_to_dynodb.GetObject (PStr "uploads") (PStr "names.json")] |}).
Proof. reflexivity. Qed.

Lemma X1_witness :
  PDict [("statusCode", PInt 200)] = PDict [("statusCode", PInt 200)] /\
  exists records items,
    getitem scenario_A "Records" = inr records /\
    iter records = inr items /\
    forallb full_shape items = true /\
    snd (dynodb_data_validate_with_dlq.lambda_handler scenario_A tt [])
    = [] ++ dynodb_data_validate_with_dlq.received_line scenario_A
         :: flat_map accepted_lines items.
Proof.
  exact (X1_success_means_every_entry_valid
           tt scenario_A (PDict [("statusCode", PInt 200)]) [] eq_refl).
Defined.

Lemma X2_witness :
  fst (dynodb_data_validate_with_dlq.lambda_handler
         (event_of [surrogate_id_entry]) tt [])
  = inl UnicodeEncodeError /\
  validator_error UnicodeEncodeError = true.
Proof.
  split; [reflexivity|].
  exact (X2_validator_errors
           tt (event_of [surrogate_id_entry]) [] UnicodeEncodeError eq_refl).
Defined.


(** [{'Records': {}}] is taken for an empty batch. *)
Lemma X4_witness :
  dynodb_data_validate_with_dlq.lambda_handler
    (PDict [("Records", PDict [])]) tt []
  = (inr (PDict [("statusCode", PInt 200)]),
     [dynodb_data_validate_with_dlq.received_line
        (PDict [("Records", PDict [])])]).
Proof.
  exact (X4_records_not_a_list
           tt (PDict [("Records", PDict [])]) (PDict []) []
           eq_refl eq_refl).
Defined.

(** A value that is [None] and a value that is a lone surrogate. *)
Lemma X5_witness :
  fst (dynodb_data_validate_with_dlq.lambda_handler
         (event_of (map id_value_entry
                        [("1", PNone); ("2", PStr lone_surrogate)]))
         tt [])
  = inr (PDict [("statusCode", PInt 200)]).
Proof.
  exact (f_equal fst
           (X5_any_value_is_accepted
              tt [("1", PNone); ("2", PStr lone_surrogate)] [] eq_refl)).
Defined.

Lemma X6_witness :
  s3_to_dynodb.lambda_handler
    sample_get_object sample_body_read sample_json_loads sample_put_item
    (PDict []) tt empty_world
  = (inl (KeyError (PStr "Records")),
     {| s3_to_dynodb.stdout := [s3_to_dynodb.received_line (PDict [])];
        s3_to_dynodb.calls := [] |}).
Proof.
  exact (X6_unreadable_event_sends_nothing
           sample_get_object sample_body_read sample_json_loads
           sample_put_item tt (PDict []) (KeyError (PStr "Records"))
           empty_world (or_introl eq_refl)).
Defined.

Lemma X7_witness :
  s3_to_dynodb.lambda_handler
    sample_get_object sample_body_read sample_json_loads sample_put_item
    (notification []) tt empty_world
  = (inl IndexError,
     {| s3_to_dynodb.stdout := [s3_to_dynodb.received_line (notification [])];
        s3_to_dynodb.calls := [] |}).
Proof.
  exact (X7_no_records_raises_IndexError
           sample_get_object sample_body_read sample_json_loads
           sample_put_item tt (notification []) empty_world eq_refl).
Defined.

(** The bucket [other] holds no object. *)
Lemma X8_witness :
  s3_to_dynodb.lambda_handler
    sample_get_object sample_body_read sample_json_loads sample_put_item
    (notification [s3_record "other" "more.json"]) tt empty_world
  = (inl (LibraryError "NoSuchKey" "The specified key does not exist."),
     {| s3_to_dynodb.stdout :=
          [s3_to_dynodb.received_line
             (notification [s3_record "other" "more.json"])];
        s3_to_dynodb.calls :=
          [s3_to_dynodb.GetObject (PStr "other") (PStr "more.json")] |}).
Proof.
  exact (X8_failed_fetch_writes_nothing
           sample_get_object sample_body_read sample_json_loads
           sample_put_item tt
           (notification [s3_record "other" "more.json"])
           (PStr "other") (PStr "more.json")
           (LibraryError "NoSuchKey" "The specified key does not exist.")
           empty_world eq_refl eq_refl eq_refl).
Defined.

(** The throttled table takes the first record and refuses the second. *)
Lemma X9_witness :
  s3_to_dynodb.lambda_handler
    sample_get_object sample_body_read sample_json_loads throttled_put_item
    sample_event tt empty_world
  = (inl (LibraryError "ClientError"
                       "ProvisionedThroughputExceededException"),
     after_writes sample_event (PStr "uploads") (PStr "data.json")
                  ([PDict [("id", PStr "1")]] ++ [PDict [("id", PStr "2")]])
                  empty_world).
Proof.
  refine (X9_refused_write_keeps_earlier_writes
            sample_get_object sample_body_read sample_json_loads
            throttled_put_item tt sample_event
            (PStr "uploads") (PStr "data.json")
            [PDict [("id", PStr "1")]] [] (PDict [("id", PStr "2")])
            (LibraryError "ClientError"
                          "ProvisionedThroughputExceededException")
            empty_world eq_refl eq_refl eq_refl eq_refl _ eq_refl).
  intros [|[|i]] x Hi; try discriminate Hi. reflexivity.
Defined.

Lemma X11_witness :
  PDict [("statusCode", PInt 200);
         ("body", PStr "Data inserted into DynamoDB")]
  = PDict [("statusCode", PInt 200);
           ("body", PStr "Data inserted into DynamoDB")] /\
  exists bucket key items,
    bucket_name sample_event = inr bucket /\
    object_key sample_event = inr key /\
    fetch_items sample_get_object sample_body_read sample_json_loads
                (s3_to_dynodb.calls empty_world) bucket key = inr items /\
    snd (s3_to_dynodb.lambda_handler
           sample_get_object sample_body_read sample_json_loads
           sample_put_item sample_event tt empty_world)
    = after_writes sample_event bucket key items empty_world /\
    forall i x,
      nth_error items i = Some x ->
      sample_put_item
        (s3_to_dynodb.calls empty_world
         ++ s3_to_dynodb.GetObject bucket key
            :: map (s3_to_dynodb.PutItem "dynotbl_1") (firstn i items))
        "dynotbl_1" x = inr tt.
Proof.
  exact (X11_success_means_every_item_written
           sample_get_object sample_body_read sample_json_loads
           sample_put_item tt sample_event
           (PDict [("statusCode", PInt 200);
                   ("body", PStr "Data inserted into DynamoDB")])
           empty_world eq_refl).
Defined.

Lemma X12_witness :
  bind (s3_to_dynodb.lambda_handler
          sample_get_object sample_body_read sample_json_loads
          sample_put_item sample_event tt)
       (fun _ =>
          s3_to_dynodb.lambda_handler
            sample_get_object sample_body_read sample_json_loads
            sample_put_item sample_event tt)
       empty_world
  = (inr (PDict [("statusCode", PInt 200);
                 ("body", PStr "Data inserted into DynamoDB")]),
     after_writes sample_event (PStr "uploads") (PStr "data.json")
                  sample_records
                  (after_writes sample_event (PStr "uploads")
                                (PStr "data.json") sample_records
                                empty_world)).
Proof.
  exact (X12_second_delivery_writes_again
           sample_get_object sample_body_read sample_json_loads
           sample_put_item tt tt sample_event
           (PStr "uploads") (PStr "data.json") sample_records empty_world
           eq_refl eq_refl (fun h => eq_refl) eq_refl
           (fun h x _ => eq_refl)).
Defined.
End FurtherExamples.
